(** * mexem: sectioned-CSV ingestion and portfolio metrics

    A shallow embedding of the computational core of the two program
    variants of the repository, [main.py] and [mexem.py]: the section
    splitter ([parse_csv_sections]), the header/data table extractors
    ([process_trades], [process_realized_summary], [process_deposits]),
    the per-symbol aggregation ([compute_asset_metrics]) and the
    per-trade calculator ([compute_transaction_metrics]), with their
    callers [load_and_process], [parse_current_prices] and, for
    [main.py], [display_metrics] and [colored].

    Conventions of the embedding.
    - A Python [float] is an IEEE-754 binary64 number: Rocq's primitive
      [float], with the same round-to-nearest-even arithmetic.
    - A Python [str] is a [string]; a character is a code point below 256.
    - A Python [dict] is an insertion-ordered association list with
      unique keys ([dict V]); a [list] is a [list].
    - [float(s)] raising [ValueError] is [py_float s = None]; every
      [try: ... except ValueError] of the sources encloses only such
      coercions, so it is a [match] on that option.  Exceptions that
      escape a function are carried by [result].
    - File reading and [csv.reader] are outside the embedding: the
      functions start from the sequence of rows the reader yields. *)

From Stdlib Require Import ZArith List String Ascii Bool Lia Permutation.
From Stdlib Require Import PrimFloat SpecFloat FloatOps FloatAxioms.
From Stdlib Require Import DecimalString.
Import ListNotations.

Local Open Scope string_scope.
Local Open Scope list_scope.

(** ** Python built-ins used by the sources *)

Module Py.

(** Exceptions that the modelled code can raise. *)
Inductive exn : Type :=
| ValueError
| IndexError.

(** Outcome of a call: a returned value or a raised exception. *)
Inductive result (A : Type) : Type :=
| Return (a : A)
| Raise (e : exn).

Arguments Return {A} a.
Arguments Raise {A} e.

Definition bind {A B : Type} (m : result A) (k : A -> result B) : result B :=
  match m with
  | Return a => k a
  | Raise e => Raise e
  end.

(** Numbers that are either an [int] or a [float] at run time: the
    literal [0] of the sources is an [int], a coerced field is a [float]. *)
Inductive num : Type :=
| PInt (z : Z)
| PFloat (f : float).

(** Conversion of an [int] operand in mixed arithmetic (round to nearest
    even; the only [int] that reaches the arithmetic below is [0]). *)
Definition float_of_int (z : Z) : float :=
  SF2Prim (binary_normalize prec emax z 0 false).

Definition to_float (n : num) : float :=
  match n with
  | PInt z => float_of_int z
  | PFloat f => f
  end.

(** Truth value of a [float] in a condition: [x != 0.0] (a NaN is true). *)
Definition truthy (x : float) : bool := negb (PrimFloat.eqb x PrimFloat.zero).

(** *** Strings *)

Definition code (c : ascii) : N := N_of_ascii c.

(** [str.isspace] on code points below 256. *)
Definition isspace (c : ascii) : bool :=
  let n := code c in
  ((9 <=? n) && (n <=? 13) || (28 <=? n) && (n <=? 32)
   || (n =? 133) || (n =? 160))%N.

Fixpoint lstrip (s : string) : string :=
  match s with
  | String c s' => if isspace c then lstrip s' else s
  | EmptyString => EmptyString
  end.

Fixpoint rstrip (s : string) : string :=
  match s with
  | String c s' =>
      match rstrip s' with
      | EmptyString => if isspace c then EmptyString else String c EmptyString
      | t => String c t
      end
  | EmptyString => EmptyString
  end.

(** [s.strip()] *)
Definition strip (s : string) : string := rstrip (lstrip s).

Definition lower_char (c : ascii) : ascii :=
  let n := code c in
  if ((65 <=? n) && (n <=? 90)
      || (192 <=? n) && (n <=? 222) && negb (n =? 215))%N
  then ascii_of_N (n + 32) else c.

(** [s.lower()] *)
Fixpoint lower (s : string) : string :=
  match s with
  | String c s' => String (lower_char c) (lower s')
  | EmptyString => EmptyString
  end.

(** *** Dictionaries *)

Definition dict (V : Type) : Type := list (string * V).

(** [d.get(k)] *)
Fixpoint get {V : Type} (k : string) (d : dict V) : option V :=
  match d with
  | [] => None
  | (k', v) :: d' => if String.eqb k k' then Some v else get k d'
  end.

(** [d.get(k, default)] *)
Definition get_default {V : Type} (k : string) (default : V) (d : dict V) : V :=
  match get k d with
  | Some v => v
  | None => default
  end.

(** [k in d] *)
Definition contains {V : Type} (k : string) (d : dict V) : bool :=
  match get k d with
  | Some _ => true
  | None => false
  end.

(** [d[k] = v]: an existing key keeps its position, a new one goes last. *)
Fixpoint setitem {V : Type} (k : string) (v : V) (d : dict V) : dict V :=
  match d with
  | [] => [(k, v)]
  | (k', v') :: d' =>
      if String.eqb k k' then (k', v) :: d' else (k', v') :: setitem k v d'
  end.

(** [d.setdefault(k, []).append(x)] *)
Definition setdefault_append {A : Type} (k : string) (x : A)
  (d : dict (list A)) : dict (list A) :=
  match get k d with
  | Some l => setitem k (l ++ [x]) d
  | None => setitem k [x] d
  end.

Definition keys {V : Type} (d : dict V) : list string := map fst d.

(** [l[i]], raising [IndexError] out of range (non-negative [i]). *)
Definition getitem {A : Type} (l : list A) (i : nat) : result A :=
  match nth_error l i with
  | Some x => Return x
  | None => Raise IndexError
  end.

(** *** [float(s)] for a string [s]

    The steps of CPython's conversion: non-ASCII white space becomes a
    blank; an underscore must stand between two digits and is dropped;
    ASCII white space is stripped at both ends; what remains must be,
    in full, a decimal literal [[+-] digits [. digits] [(e|E) [+-] digits]]
    with at least one mantissa digit, or [inf], [infinity] or [nan] in
    any letter case with an optional sign.  The value is the literal
    rounded to the nearest binary64 number, ties to even, an overflow
    giving an infinity. *)

Definition is_digit (c : ascii) : bool :=
  let n := code c in ((48 <=? n) && (n <=? 57))%N.

(** White space for the C-level scanner. *)
Definition c_isspace (c : ascii) : bool :=
  let n := code c in ((9 <=? n) && (n <=? 13) || (n =? 32))%N.

Definition space_to_ascii (c : ascii) : ascii :=
  if ((code c =? 133) || (code c =? 160))%N then " "%char else c.

(** Underscores: allowed only after a digit and before a digit. *)
Fixpoint drop_underscores (prev : option ascii) (cs : list ascii)
  : option (list ascii) :=
  let prev_digit := match prev with Some p => is_digit p | None => false end in
  let prev_us := match prev with Some p => Ascii.eqb p "_" | None => false end in
  match cs with
  | [] => if prev_us then None else Some []
  | c :: cs' =>
      if Ascii.eqb c "_" then
        if prev_digit then drop_underscores (Some c) cs' else None
      else if prev_us && negb (is_digit c) then None
      else option_map (cons c) (drop_underscores (Some c) cs')
  end.

Fixpoint c_lstrip (cs : list ascii) : list ascii :=
  match cs with
  | c :: cs' => if c_isspace c then c_lstrip cs' else cs
  | [] => []
  end.

Definition c_strip (cs : list ascii) : list ascii :=
  rev (c_lstrip (rev (c_lstrip cs))).

(** Longest prefix of digits and the rest. *)
Fixpoint span_digits (cs : list ascii) : list ascii * list ascii :=
  match cs with
  | c :: cs' =>
      if is_digit c then let (ds, r) := span_digits cs' in (c :: ds, r)
      else ([], cs)
  | [] => ([], [])
  end.

Definition digits_value (ds : list ascii) : Z :=
  fold_left (fun acc c => (10 * acc + (Z.of_N (code c) - 48))%Z) ds 0%Z.

(** Optional sign: [true] for [-]. *)
Definition take_sign (cs : list ascii) : bool * list ascii :=
  match cs with
  | "-"%char :: r => (true, r)
  | "+"%char :: r => (false, r)
  | _ => (false, cs)
  end.

(** The quotient [n / d] of two positive integers with sign [s], rounded. *)
Definition round_ratio (s : bool) (n d : positive) : float :=
  SF2Prim (SFdiv prec emax (S754_finite s n 0) (S754_finite false d 0)).

(** The number [(-1)^s * m * 10^e], rounded. *)
Definition decimal_value (s : bool) (m e : Z) : float :=
  match m with
  | Zpos p =>
      match e with
      | Z0 => round_ratio s p 1
      | Zpos k => round_ratio s (p * 10 ^ k) 1
      | Zneg k => round_ratio s p (10 ^ k)
      end
  | _ => if s then PrimFloat.neg_zero else PrimFloat.zero
  end.

(** Exponent part after the mantissa: it must reach the end of input. *)
Definition parse_exponent (cs : list ascii) : option Z :=
  match cs with
  | [] => Some 0%Z
  | c :: r =>
      if Ascii.eqb c "e" || Ascii.eqb c "E" then
        let (neg, r1) := take_sign r in
        match span_digits r1 with
        | (d :: ds, []) =>
            let e := digits_value (d :: ds) in
            Some (if neg then (- e)%Z else e)
        | _ => None
        end
      else None
  end.

Definition parse_decimal (cs : list ascii) : option float :=
  let (s, r) := take_sign cs in
  let (ip, r1) := span_digits r in
  let (fp, r2) :=
    match r1 with
    | "."%char :: r' => span_digits r'
    | _ => ([], r1)
    end in
  match ip ++ fp with
  | [] => None
  | ds =>
      match parse_exponent r2 with
      | Some e => Some (decimal_value s (digits_value ds) (e - Z.of_nat (List.length fp)))
      | None => None
      end
  end.

Definition parse_inf_or_nan (cs : list ascii) : option float :=
  let (s, r) := take_sign cs in
  let w := lower (string_of_list_ascii r) in
  if String.eqb w "inf" || String.eqb w "infinity" then
    Some (if s then PrimFloat.neg_infinity else PrimFloat.infinity)
  else if String.eqb w "nan" then Some PrimFloat.nan
  else None.

(** [float(s)]; [None] stands for [ValueError]. *)
Definition py_float (s : string) : option float :=
  match drop_underscores None (map space_to_ascii (list_ascii_of_string s)) with
  | None => None
  | Some cs =>
      let cs' := c_strip cs in
      match parse_decimal cs' with
      | Some x => Some x
      | None => parse_inf_or_nan cs'
      end
  end.

End Py.

Import Py.

Local Open Scope float_scope.

(** ** Data model *)

(** One line of the input file, as [csv.reader] yields it. *)
Definition row : Type := list string.

(** A record: field name to (stripped) cell. *)
Definition record : Type := dict string.

(** The per-symbol dictionary built by [compute_asset_metrics]. *)
Module Asset.

Record metrics : Type := Build {
  total_quantity : float;
  total_cost : float;
  avg_purchase_price : num;
  current_price : num;
  current_value : float;
  absolute_pl : float;
  percentage_return : option float;
  realized_total : num;
  unrealized_total : num
}.

End Asset.

(** The attributes of a [PortfolioAnalyzer] that the core reads and writes. *)
Record PortfolioAnalyzer : Type := {
  current_prices : dict float;
  sections : dict (list row);
  trades_by_symbol : dict (list record);
  realized_summary : dict record;
  deposits : list record;
  asset_metrics : dict Asset.metrics
}.

(** [{header[i]: row[i+2].strip() for i in range(min(len(header), len(row)-2))}]:
    the header names paired with the cells from index 2 on, up to the
    shorter of the two; a repeated name keeps its place and takes the
    later value. *)
Definition make_record (header : list string) (r : row) : record :=
  fold_left (fun d kv => setitem (fst kv) (strip (snd kv)) d)
            (combine header (skipn 2 r)) [].

(** [header] is [None] or a list; it counts as true when non-empty. *)
Definition active (header : option (list string)) : option (list string) :=
  match header with
  | Some (_ :: _) => header
  | _ => None
  end.

(** ** main.py *)

Module Main.

(** Loop body of [parse_csv_sections]: an empty row is passed over, any
    other joins the group of its stripped first cell. *)
Definition sections_step (sections : dict (list row)) (r : row)
  : dict (list row) :=
  match r with
  | [] => sections
  | c0 :: _ => setdefault_append (strip c0) r sections
  end.

(** [parse_csv_sections], from the rows of the file. *)
Definition parse_csv_sections (rows : list row) : dict (list row) :=
  fold_left sections_step rows [].

Definition is_header (tag : string) : bool := String.eqb (lower (strip tag)) "header".
Definition is_data (tag : string) : bool := String.eqb (lower (strip tag)) "data".

(** First loop of [process_trades]: the header in force and the trades so far. *)
Definition trades_step (st : option (list string) * list record) (r : row)
  : option (list string) * list record :=
  if (List.length r <? 3)%nat then st
  else
    match r with
    | _ :: tag :: cells =>
        if is_header tag then (Some (map strip cells), snd st)
        else if is_data tag then
          match active (fst st) with
          | Some header => (fst st, snd st ++ [make_record header r])
          | None => st
          end
        else st
    | _ => st
    end.

Definition extract_trades (rows : list row) : list record :=
  snd (fold_left trades_step rows (None, [])).

(** Second loop of [process_trades]: grouping by a non-empty [Symbol]. *)
Definition group_step (by_symbol : dict (list record)) (trade : record)
  : dict (list record) :=
  match get "Symbol" trade with
  | Some symbol =>
      if String.eqb symbol "" then by_symbol
      else setdefault_append symbol trade by_symbol
  | None => by_symbol
  end.

Definition group_by_symbol (trades : list record) : dict (list record) :=
  fold_left group_step trades [].

Definition process_trades (rows : list row) : dict (list record) :=
  group_by_symbol (extract_trades rows).

(** Loop body of [process_realized_summary]; [row[1]] is read unguarded. *)
Definition summary_step (st : option (list string) * dict record) (r : row)
  : result (option (list string) * dict record) :=
  bind (getitem r 1) (fun tag =>
    if is_header tag then Return (Some (map strip (skipn 2 r)), snd st)
    else if is_data tag then
      match active (fst st) with
      | Some header =>
          let data := make_record header r in
          let symbol := get_default "Symbol" "Unknown" data in
          Return (fst st, setitem symbol data (snd st))
      | None => Return st
      end
    else Return st).

(** A [for] loop whose body may raise. *)
Fixpoint for_each {S A : Type} (body : S -> A -> result S) (l : list A) (st : S)
  : result S :=
  match l with
  | [] => Return st
  | x :: l' => bind (body st x) (for_each body l')
  end.

Definition process_realized_summary (rows : list row) : result (dict record) :=
  bind (for_each summary_step rows (None, [])) (fun st => Return (snd st)).

(** Loop body of [process_deposits]. *)
Definition deposits_step (st : option (list string) * list record) (r : row)
  : result (option (list string) * list record) :=
  bind (getitem r 1) (fun tag =>
    if is_header tag then Return (Some (map strip (skipn 2 r)), snd st)
    else if is_data tag then
      match active (fst st) with
      | Some header => Return (fst st, snd st ++ [make_record header r])
      | None => Return st
      end
    else Return st).

Definition process_deposits (rows : list row) : result (list record) :=
  bind (for_each deposits_step rows (None, [])) (fun st => Return (snd st)).

(** The three coercions of one trade inside [try]: [None] when any of
    them raises [ValueError]. *)
Definition trade_numbers (trade : record) : option (float * float * float) :=
  match py_float (get_default "Quantity" "0" trade) with
  | Some qty =>
      match py_float (get_default "T. Price" "0" trade) with
      | Some price =>
          match py_float (get_default "Comm/Fee" "0" trade) with
          | Some commission => Some (qty, price, commission)
          | None => None
          end
      | None => None
      end
  | None => None
  end.

(** Inner loop body of [compute_asset_metrics] on [(total_qty, total_cost)]. *)
Definition accumulate (acc : float * float) (trade : record) : float * float :=
  match trade_numbers trade with
  | Some (qty, price, commission) =>
      (fst acc + qty, snd acc + (qty * price - commission))
  | None => acc
  end.

Definition totals (trades : list record) : float * float :=
  fold_left accumulate trades (0, 0).

(** The realized and unrealized totals of a symbol: both coerced, or both
    the [int] 0 of the [except] branch. *)
Definition performance (realized_data : record) : num * num :=
  match py_float (get_default "Realized Total" "0" realized_data) with
  | Some realized =>
      match py_float (get_default "Unrealized Total" "0" realized_data) with
      | Some unrealized => (PFloat realized, PFloat unrealized)
      | None => (PInt 0, PInt 0)
      end
  | None => (PInt 0, PInt 0)
  end.

(** Outer loop body of [compute_asset_metrics]: the entry of one symbol. *)
Definition symbol_metrics (prices : dict float) (summary : dict record)
  (symbol : string) (trades : list record) : Asset.metrics :=
  let total_qty := fst (totals trades) in
  let total_cost := snd (totals trades) in
  let avg_price :=
    if truthy total_qty then PFloat (total_cost / total_qty) else PInt 0 in
  let current_price :=
    match get symbol prices with
    | Some p => PFloat p
    | None => avg_price
    end in
  let current_value := total_qty * to_float current_price in
  let abs_pl := current_value - total_cost in
  let pct_return :=
    if truthy total_cost then Some (abs_pl / total_cost * 100) else None in
  let realized_data := get_default symbol [] summary in
  Asset.Build total_qty total_cost avg_price current_price current_value
    abs_pl pct_return
    (fst (performance realized_data)) (snd (performance realized_data)).

(** [metrics[symbol] = {...}] for one item of [trades_by_symbol]. *)
Definition metrics_step (prices : dict float) (summary : dict record)
  (metrics : dict Asset.metrics) (item : string * list record)
  : dict Asset.metrics :=
  setitem (fst item) (symbol_metrics prices summary (fst item) (snd item)) metrics.

Definition compute_asset_metrics (by_symbol : dict (list record))
  (summary : dict record) (prices : dict float) : dict Asset.metrics :=
  fold_left (metrics_step prices summary) by_symbol [].

(** The dictionary returned by [compute_transaction_metrics]. *)
Module Tx.

Record metrics : Type := Build {
  quantity : float;
  trade_price : float;
  cost : float;
  current_value : float;
  profit_loss : float;
  percentage_return : option float;
  commission : float
}.

End Tx.

(** [compute_transaction_metrics]: [Return None] is the function's [None];
    the coercion of [Comm/Fee] stands outside the [try]. *)
Definition compute_transaction_metrics (trade : record) (current_price : float)
  : result (option Tx.metrics) :=
  match py_float (get_default "Quantity" "0" trade) with
  | None => Return None
  | Some qty =>
      match py_float (get_default "T. Price" "0" trade) with
      | None => Return None
      | Some trade_price =>
          let cost := qty * trade_price in
          let current_val := qty * current_price in
          let profit_loss := current_val - cost in
          let pct_return :=
            if truthy cost then Some (profit_loss / cost * 100) else None in
          match py_float (get_default "Comm/Fee" "0" trade) with
          | None => Raise ValueError
          | Some commission =>
              let pct_return :=
                if qty <? 0 then option_map PrimFloat.opp pct_return
                else pct_return in
              Return (Some (Tx.Build qty trade_price cost current_val
                              profit_loss pct_return commission))
          end
      end
  end.

(** [load_and_process], from the rows of the file. *)
Definition load_and_process (prices : dict float) (rows : list row)
  : result PortfolioAnalyzer :=
  let sections := parse_csv_sections rows in
  let by_symbol :=
    match get "Trades" sections with
    | Some rs => process_trades rs
    | None => []
    end in
  bind (match get "Realized & Unrealized Performance Summary" sections with
        | Some rs => process_realized_summary rs
        | None => Return []
        end) (fun summary =>
  bind (match get "Deposits & Withdrawals" sections with
        | Some rs => process_deposits rs
        | None => Return []
        end) (fun deposits =>
  Return {| current_prices := prices;
            sections := sections;
            trades_by_symbol := by_symbol;
            realized_summary := summary;
            deposits := deposits;
            asset_metrics := compute_asset_metrics by_symbol summary prices |})).

End Main.

(** ** mexem.py

    The second variant: tags are compared case-sensitively with
    ["Header"] and ["Data"], the aggregation keeps buy orders only and
    does not read [Comm/Fee], and a transaction has no [commission]. *)

Module Mexem.

(** [parse_csv_sections] is the same text in both files. *)
Definition parse_csv_sections (rows : list row) : dict (list row) :=
  fold_left Main.sections_step rows [].

Definition is_header (tag : string) : bool := String.eqb (strip tag) "Header".
Definition is_data (tag : string) : bool := String.eqb (strip tag) "Data".

Definition trades_step (st : option (list string) * list record) (r : row)
  : option (list string) * list record :=
  if (List.length r <? 3)%nat then st
  else
    match r with
    | _ :: tag :: cells =>
        if is_header tag then (Some (map strip cells), snd st)
        else if is_data tag then
          match active (fst st) with
          | Some header => (fst st, snd st ++ [make_record header r])
          | None => st
          end
        else st
    | _ => st
    end.

Definition extract_trades (rows : list row) : list record :=
  snd (fold_left trades_step rows (None, [])).

(** The grouping loop is the same text in both files. *)
Definition process_trades (rows : list row) : dict (list record) :=
  Main.group_by_symbol (extract_trades rows).

Definition summary_step (st : option (list string) * dict record) (r : row)
  : result (option (list string) * dict record) :=
  bind (getitem r 1) (fun tag =>
    if is_header tag then Return (Some (map strip (skipn 2 r)), snd st)
    else if is_data tag then
      match active (fst st) with
      | Some header =>
          let data := make_record header r in
          let symbol := get_default "Symbol" "Unknown" data in
          Return (fst st, setitem symbol data (snd st))
      | None => Return st
      end
    else Return st).

Definition process_realized_summary (rows : list row) : result (dict record) :=
  bind (Main.for_each summary_step rows (None, [])) (fun st => Return (snd st)).

Definition deposits_step (st : option (list string) * list record) (r : row)
  : result (option (list string) * list record) :=
  bind (getitem r 1) (fun tag =>
    if is_header tag then Return (Some (map strip (skipn 2 r)), snd st)
    else if is_data tag then
      match active (fst st) with
      | Some header => Return (fst st, snd st ++ [make_record header r])
      | None => Return st
      end
    else Return st).

Definition process_deposits (rows : list row) : result (list record) :=
  bind (Main.for_each deposits_step rows (None, [])) (fun st => Return (snd st)).

(** Inner loop body of [compute_asset_metrics]: buy orders only; the
    price is coerced only when the quantity is positive. *)
Definition accumulate (acc : float * float) (trade : record) : float * float :=
  match py_float (get_default "Quantity" "0" trade) with
  | Some quantity =>
      if 0 <? quantity then
        match py_float (get_default "T. Price" "0" trade) with
        | Some t_price => (fst acc + quantity, snd acc + quantity * t_price)
        | None => acc
        end
      else acc
  | None => acc
  end.

Definition totals (trades : list record) : float * float :=
  fold_left accumulate trades (0, 0).

Definition symbol_metrics (prices : dict float) (summary : dict record)
  (symbol : string) (trades : list record) : Asset.metrics :=
  let total_quantity := fst (totals trades) in
  let total_cost := snd (totals trades) in
  let avg_purchase_price :=
    if truthy total_quantity then PFloat (total_cost / total_quantity)
    else PInt 0 in
  let current_price :=
    match get symbol prices with
    | Some p => PFloat p
    | None => avg_purchase_price
    end in
  let current_value := total_quantity * to_float current_price in
  let absolute_pl := current_value - total_cost in
  let percentage_return :=
    if truthy total_cost then Some (absolute_pl / total_cost * 100) else None in
  let realized_data := get_default symbol [] summary in
  Asset.Build total_quantity total_cost avg_purchase_price current_price
    current_value absolute_pl percentage_return
    (fst (Main.performance realized_data)) (snd (Main.performance realized_data)).

(** [metrics[symbol] = {...}] for one item of [trades_by_symbol]. *)
Definition metrics_step (prices : dict float) (summary : dict record)
  (metrics : dict Asset.metrics) (item : string * list record)
  : dict Asset.metrics :=
  setitem (fst item) (symbol_metrics prices summary (fst item) (snd item)) metrics.

Definition compute_asset_metrics (by_symbol : dict (list record))
  (summary : dict record) (prices : dict float) : dict Asset.metrics :=
  fold_left (metrics_step prices summary) by_symbol [].

Module Tx.

Record metrics : Type := Build {
  quantity : float;
  trade_price : float;
  cost : float;
  current_value : float;
  profit_loss : float;
  percentage_return : option float
}.

End Tx.

(** [compute_transaction_metrics]: [None] is the function's [None]; this
    variant raises nothing. *)
Definition compute_transaction_metrics (trade : record) (current_price : float)
  : option Tx.metrics :=
  match py_float (get_default "Quantity" "0" trade) with
  | None => None
  | Some quantity =>
      match py_float (get_default "T. Price" "0" trade) with
      | None => None
      | Some trade_price =>
          let cost := quantity * trade_price in
          let current_value := quantity * current_price in
          let pl := current_value - cost in
          let pct_return :=
            if truthy cost then Some (pl / cost * 100) else None in
          let pct_return :=
            if quantity <? 0 then option_map PrimFloat.opp pct_return
            else pct_return in
          Some (Tx.Build quantity trade_price cost current_value pl pct_return)
      end
  end.

Definition load_and_process (prices : dict float) (rows : list row)
  : result PortfolioAnalyzer :=
  let sections := parse_csv_sections rows in
  let by_symbol :=
    match get "Trades" sections with
    | Some rs => process_trades rs
    | None => []
    end in
  bind (match get "Realized & Unrealized Performance Summary" sections with
        | Some rs => process_realized_summary rs
        | None => Return []
        end) (fun summary =>
  bind (match get "Deposits & Withdrawals" sections with
        | Some rs => process_deposits rs
        | None => Return []
        end) (fun deposits =>
  Return {| current_prices := prices;
            sections := sections;
            trades_by_symbol := by_symbol;
            realized_summary := summary;
            deposits := deposits;
            asset_metrics := compute_asset_metrics by_symbol summary prices |})).

End Mexem.

(** ** Specification-level definitions *)

(** A row belongs to the section [name]: it has a first cell, which
    stripped is [name]. *)
Definition in_section (name : string) (r : row) : bool :=
  match r with
  | [] => false
  | c0 :: _ => String.eqb (strip c0) name
  end.

(** A row with at least one cell. *)
Definition nonblank (r : row) : bool :=
  match r with
  | [] => false
  | _ :: _ => true
  end.

(** Number of rows held by all the groups of a sectioned file. *)
Definition group_sizes {A : Type} (d : dict (list A)) : nat :=
  list_sum (map (fun g => List.length (snd g)) d).

(** The distinct elements of a list, each at its first occurrence. *)
Fixpoint first_seen (l : list string) : list string :=
  match l with
  | [] => []
  | x :: l' => x :: filter (fun y => negb (String.eqb y x)) (first_seen l')
  end.

(** The [Symbol] under which a record is grouped, if any. *)
Definition grouping_symbol (trade : record) : option string :=
  match get "Symbol" trade with
  | Some symbol => if String.eqb symbol "" then None else Some symbol
  | None => None
  end.

Definition has_symbol (trade : record) : bool :=
  match grouping_symbol trade with
  | Some _ => true
  | None => false
  end.

Definition symbol_is (s : string) (trade : record) : bool :=
  match grouping_symbol trade with
  | Some s' => String.eqb s' s
  | None => false
  end.

(** The symbols of the grouped records, in the order of the records. *)
Definition symbols_of (trades : list record) : list string :=
  flat_map (fun t => match grouping_symbol t with
                     | Some s => [s]
                     | None => []
                     end) trades.

(** The per-trade terms [main.py] adds up: for every trade whose three
    fields coerce, its quantity and [quantity * price - commission]. *)
Definition contributions (trades : list record) : list (float * float) :=
  flat_map (fun t => match Main.trade_numbers t with
                     | Some (qty, price, commission) =>
                         [(qty, qty * price - commission)]
                     | None => []
                     end) trades.

(** Left-to-right sum from [0.0], as a [+=] loop computes it. *)
Definition float_sum (xs : list float) : float :=
  fold_left PrimFloat.add xs 0.

(** ** Inputs of the scenarios *)

Definition trades_header : row :=
  ["Trades"; "Header"; "Symbol"; "Quantity"; "T. Price"; "Comm/Fee"].

(** Two purchases of AAPL: 10 at 100 with commission 1, 5 at 110 with
    commission 0.5. *)
Definition aapl_rows : list row :=
  [ trades_header;
    ["Trades"; "Data"; "AAPL"; "10"; "100"; "1"];
    ["Trades"; "Data"; "AAPL"; "5"; "110"; "0.5"] ].

(** A position opened and closed again: 10 bought at 100, 10 sold at 110. *)
Definition closed_position_rows : list row :=
  [ trades_header;
    ["Trades"; "Data"; "ACME"; "10"; "100"; "0"];
    ["Trades"; "Data"; "ACME"; "-10"; "110"; "0"] ].

(** A trade record with the given cells. *)
Definition trade_of (symbol quantity price fee : string) : record :=
  [("Symbol", symbol); ("Quantity", quantity); ("T. Price", price);
   ("Comm/Fee", fee)].

(** Three purchases of fractional shares, and the same in reverse order. *)
Definition fractional_trades : list record :=
  [ trade_of "ACME" "0.1" "1" "0";
    trade_of "ACME" "0.2" "1" "0";
    trade_of "ACME" "0.3" "1" "0" ].

Definition fractional_trades_reversed : list record :=
  [ trade_of "ACME" "0.3" "1" "0";
    trade_of "ACME" "0.2" "1" "0";
    trade_of "ACME" "0.1" "1" "0" ].

(** One share bought at 100 and eight at 101.01, without commission. *)
Definition two_purchases : list record :=
  [ trade_of "ACME" "1" "100" "0"; trade_of "ACME" "8" "101.01" "0" ].

(** A purchase and a sale whose [Comm/Fee] cell is empty. *)
Definition buy_without_fee : record := trade_of "AAPL" "10" "100" "".

Definition sell_without_fee : record := trade_of "AAPL" "-10" "100" "".

(** A record of the trades table whose header has no [Comm/Fee] column. *)
Definition trade_without_fee_column : record :=
  [("Symbol", "AAPL"); ("Quantity", "10"); ("T. Price", "100")].

Definition summary_name : string := "Realized & Unrealized Performance Summary".

(** A performance summary whose only row is the bare section name. *)
Definition bare_summary_rows : list row := [ [summary_name] ].

(** A performance summary with a header and a two-cell data row. *)
Definition short_summary_rows : list row :=
  [ [summary_name; "Header"; "Symbol"; "Realized Total"; "Unrealized Total"];
    [summary_name; "Data"] ].

(** An AAPL purchase with a performance row whose realized total is not
    a number. *)
Definition unparsable_summary_rows : list row :=
  [ trades_header;
    ["Trades"; "Data"; "AAPL"; "10"; "100"; "1"];
    [summary_name; "Header"; "Symbol"; "Realized Total"; "Unrealized Total"];
    [summary_name; "Data"; "AAPL"; "n/a"; "25.5"] ].

(** ** Command line ([parse_current_prices], the same text in both files) *)

(** [item.split(sep, 1)] when [sep in item]: the text before the first
    [sep] and the text after it; [None] when [sep] does not occur. *)
Fixpoint split_once (sep : ascii) (s : string) : option (string * string) :=
  match s with
  | EmptyString => None
  | String c s' =>
      if Ascii.eqb c sep then Some (EmptyString, s')
      else
        match split_once sep s' with
        | Some (before, after) => Some (String c before, after)
        | None => None
        end
  end.

(** Loop body of [parse_current_prices]. *)
Definition prices_step (prices : dict float) (entry : string) : dict float :=
  match split_once "=" entry with
  | Some (symbol, price_str) =>
      match py_float (strip price_str) with
      | Some price => setitem (strip symbol) price prices
      | None => prices
      end
  | None => prices
  end.

(** [parse_current_prices], from the list of [SYMBOL=PRICE] entries. *)
Definition parse_current_prices (price_entries : list string) : dict float :=
  fold_left prices_step price_entries [].

(** ** Further specification-level definitions *)

(** The symbol and the price that a well-formed entry stands for. *)
Definition price_of_entry (entry : string) : option (string * float) :=
  match split_once "=" entry with
  | Some (symbol, price_str) =>
      match py_float (strip price_str) with
      | Some price => Some (strip symbol, price)
      | None => None
      end
  | None => None
  end.

(** The well-formed entries of a list, in order. *)
Definition price_entries_of (entries : list string) : dict float :=
  flat_map (fun e => match price_of_entry e with
                     | Some sp => [sp]
                     | None => []
                     end) entries.

(** The tag of a row that is long enough to carry one. *)
Definition row_tag (r : row) : option string :=
  if (List.length r <? 3)%nat then None else nth_error r 1.

(** Rows that [main.py]'s [process_trades] takes as a header and as data. *)
Definition header_row (r : row) : bool :=
  match row_tag r with
  | Some tag => Main.is_header tag
  | None => false
  end.

Definition data_row (r : row) : bool :=
  match row_tag r with
  | Some tag => Main.is_data tag
  | None => false
  end.

(** The key under which [process_realized_summary] stores a record. *)
Definition summary_key (data : record) : string :=
  get_default "Symbol" "Unknown" data.

(** Records indexed by their key, a later record replacing an earlier one. *)
Definition index_by_symbol (records : list record) : dict record :=
  fold_left (fun d data => setitem (summary_key data) data d) records [].

Definition deposits_name : string := "Deposits & Withdrawals".

(** A row of the performance summary or of the deposits section. *)
Definition unguarded_row (r : row) : bool :=
  in_section summary_name r || in_section deposits_name r.

(** Price entries of a command line: the second entry for AAPL replaces
    the first; the other three are malformed. *)
Definition sample_price_entries : list string :=
  [ "AAPL=150.25"; "MSFT"; " AAPL = 151 "; "TSLA=12=3"; "ACME=abc" ].

(** A trades table with a second header that renames and reorders columns. *)
Definition two_table_rows : list row :=
  [ ["Trades"; "Data"; "EARLY"; "1"; "2"; "3"];
    trades_header;
    ["Trades"; "Data"; "AAPL"; "10"; "100"; "1"];
    ["Trades"; "SubTotal"; "AAPL"; "10"; "100"; "1"];
    ["Trades"; "Header"; "Quantity"; "Symbol"];
    ["Trades"; "Data"; "5"; "MSFT"; "ignored"] ].

(** Tags spelled as [mexem.py] expects them: whatever [main.py] takes as
    a header or data tag is, stripped, exactly ["Header"] or ["Data"]. *)
Definition exact_tag (tag : string) : bool :=
  (negb (Main.is_header tag) || String.eqb (strip tag) "Header")
  && (negb (Main.is_data tag) || String.eqb (strip tag) "Data").

(** Rows whose tag, when they have one, is spelled exactly. *)
Definition exact_tags (rows : list row) : bool :=
  forallb (fun r => match nth_error r 1 with
                    | Some tag => exact_tag tag
                    | None => true
                    end) rows.

(** AAPL bought, with a row that is no number and a sale mixed in. *)
Definition mixed_trades : list record :=
  [ trade_of "AAPL" "10" "100" "1";
    trade_of "AAPL" "n/a" "100" "1";
    trade_of "AAPL" "-4" "105" "1";
    trade_of "AAPL" "5" "110" "0.5" ].

(** ** Display ([colored] and [display_metrics] of main.py)

    What [print] writes is kept as the list of its arguments, one per
    call; a raised exception ends the list. The two conversions of a
    [float] to text are left to the language: [format_2f x] stands for
    [f"{x:.2f}"] and [str_float x] for [f"{x}"]. *)

Module Display.

(** The escape character, ["\033"]. *)
Definition esc : string := String (ascii_of_nat 27) EmptyString.

Definition ANSI_COLORS : dict string :=
  [ ("red", esc ++ "[91m"); ("green", esc ++ "[92m"); ("blue", esc ++ "[94m");
    ("pink", esc ++ "[95m"); ("yellow", esc ++ "[93m"); ("reset", esc ++ "[0m") ]%string.

(** [colored(text, color, enable_color)]; the two subscripts stand under
    the test [color in ANSI_COLORS]. *)
Definition colored (text color : string) (enable_color : bool) : string :=
  if enable_color && contains color ANSI_COLORS
  then (get_default color "" ANSI_COLORS ++ text
        ++ get_default "reset" "" ANSI_COLORS)%string
  else text.

(** Printed lines so far and the outcome. *)
Definition printed (A : Type) : Type := list string * result A.

Definition print (s : string) : printed unit := ([s], Return tt).

Definition call {A : Type} (r : result A) : printed A := ([], r).

Definition and_then {A B : Type} (m : printed A) (k : A -> printed B) : printed B :=
  match snd m with
  | Return a => (fst m ++ fst (k a), snd (k a))
  | Raise e => (fst m, Raise e)
  end.

Fixpoint for_printed {A : Type} (body : A -> printed unit) (l : list A)
  : printed unit :=
  match l with
  | [] => ([], Return tt)
  | x :: l' => and_then (body x) (fun _ => for_printed body l')
  end.

(** [str(idx)] for an index. *)
Definition str_int (n : nat) : string := NilZero.string_of_uint (Nat.to_uint n).

(** [enumerate(l, start=1)] *)
Definition enumerate1 {A : Type} (l : list A) : list (nat * A) :=
  combine (seq 1 (List.length l)) l.

(** [x >= 0] for a number that is an [int] or a [float]. *)
Definition num_ge_zero (n : num) : bool :=
  match n with
  | PInt z => (0 <=? z)%Z
  | PFloat f => (0 <=? f)%float
  end.

(** [pct and pct >= 0] for a [float] or [None]. *)
Definition positive_return (pct : option float) : bool :=
  match pct with
  | Some p => truthy p && (0 <=? p)%float
  | None => false
  end.

Section Formatting.

Variable format_2f : float -> string.
Variable str_float : float -> string.

(** The text of a percentage: ["N/A"] or two decimals and a percent
    sign, green when [positive_return] holds and red otherwise. *)
Definition percentage_text (use_color : bool) (pct : option float) : string :=
  let pct_str :=
    match pct with
    | None => "N/A"
    | Some p => (format_2f p ++ "%")%string
    end in
  if positive_return pct then colored pct_str "green" use_color
  else colored pct_str "red" use_color.

(** The text of an amount: green when it is [>= 0] and red otherwise. *)
Definition amount_text (use_color : bool) (n : num) : string :=
  if num_ge_zero n then colored (format_2f (to_float n)) "green" use_color
  else colored (format_2f (to_float n)) "red" use_color.

(** Body of the first loop of [display_metrics]. *)
Definition asset_block (use_color : bool) (item : string * Asset.metrics)
  : printed unit :=
  let symbol := fst item in
  let data := snd item in
  let pct_str := percentage_text use_color (Asset.percentage_return data) in
  let realized_str := amount_text use_color (Asset.realized_total data) in
  let unrealized_str := amount_text use_color (Asset.unrealized_total data) in
  and_then (print (colored ("Asset: " ++ symbol) "pink" use_color)) (fun _ =>
  and_then (print ("  Total Quantity        : "
                   ++ str_float (Asset.total_quantity data))) (fun _ =>
  and_then (print ("  Total Cost            : "
                   ++ format_2f (Asset.total_cost data))) (fun _ =>
  and_then (print ("  Avg Purchase Price    : "
                   ++ format_2f (to_float (Asset.avg_purchase_price data)))) (fun _ =>
  and_then (print ("  Current Price         : "
                   ++ format_2f (to_float (Asset.current_price data)))) (fun _ =>
  and_then (print ("  Current Value         : "
                   ++ format_2f (Asset.current_value data))) (fun _ =>
  and_then (print ("  Percentage Return     : " ++ pct_str)) (fun _ =>
  and_then (print ("  Realized P/L          : " ++ realized_str)) (fun _ =>
  print ("  Unrealized P/L        : " ++ unrealized_str
         ++ String (ascii_of_nat 10) EmptyString)))))))))%string.

(** [self.current_prices.get(symbol,
      self.asset_metrics.get(symbol, {}).get("avg_purchase_price", 0))] *)
Definition transaction_price (st : PortfolioAnalyzer) (symbol : string) : num :=
  match get symbol (current_prices st) with
  | Some p => PFloat p
  | None =>
      match get symbol (asset_metrics st) with
      | Some data => Asset.avg_purchase_price data
      | None => PInt 0
      end
  end.

(** Body of the loop over the trades of one symbol. *)
Definition transaction_block (use_color : bool) (current_price : num)
  (item : nat * record) : printed unit :=
  let idx := fst item in
  let trade := snd item in
  and_then (call (Main.compute_transaction_metrics trade (to_float current_price)))
    (fun tx =>
  match tx with
  | None => ([], Return tt)
  | Some tx =>
      let ret_str := percentage_text use_color (Main.Tx.percentage_return tx) in
      let pl_str :=
        if (0 <=? Main.Tx.profit_loss tx)%float
        then colored (format_2f (Main.Tx.profit_loss tx)) "green" use_color
        else colored (format_2f (Main.Tx.profit_loss tx)) "red" use_color in
      and_then (print (colored ("  Transaction " ++ str_int idx ++ ":")
                               "yellow" use_color)) (fun _ =>
      and_then (print ("    Quantity      : "
                       ++ str_float (Main.Tx.quantity tx))) (fun _ =>
      and_then (print ("    Trade Price   : "
                       ++ format_2f (Main.Tx.trade_price tx))) (fun _ =>
      and_then (print ("    Cost          : "
                       ++ format_2f (Main.Tx.cost tx))) (fun _ =>
      and_then (print ("    Current Value : "
                       ++ format_2f (Main.Tx.current_value tx))) (fun _ =>
      and_then (print ("    Profit/Loss   : " ++ pl_str)) (fun _ =>
      and_then (print ("    Return        : " ++ ret_str)) (fun _ =>
      print ("    Commission    : " ++ format_2f (Main.Tx.commission tx)
             ++ String (ascii_of_nat 10) EmptyString))))))))
  end)%string.

(** Body of the loop over [trades_by_symbol]. *)
Definition symbol_block (st : PortfolioAnalyzer) (use_color : bool)
  (item : string * list record) : printed unit :=
  let symbol := fst item in
  let trades := snd item in
  let current_price := transaction_price st symbol in
  and_then (print (colored ("Asset: " ++ symbol)%string "pink" use_color)) (fun _ =>
  for_printed (transaction_block use_color current_price) (enumerate1 trades)).

(** [display_metrics]; [detailed] is accepted and not used. *)
Definition display_metrics (st : PortfolioAnalyzer) (use_color : bool)
  (detailed detailed_tx : bool) : printed unit :=
  and_then (print (colored "Portfolio Metrics by Asset:" "blue" use_color)) (fun _ =>
  and_then (for_printed (asset_block use_color) (asset_metrics st)) (fun _ =>
  if detailed_tx then
    and_then (print (colored "Transaction Details:" "blue" use_color)) (fun _ =>
    for_printed (symbol_block st use_color) (trades_by_symbol st))
  else ([], Return tt))).

End Formatting.

End Display.

(** A trade whose quantity and price are numbers and whose commission
    is not: the trades on which [compute_transaction_metrics] raises. *)
Definition fee_unreadable (trade : record) : bool :=
  match py_float (get_default "Quantity" "0" trade),
        py_float (get_default "T. Price" "0" trade),
        py_float (get_default "Comm/Fee" "0" trade) with
  | Some _, Some _, None => true
  | _, _, _ => false
  end.

(** A buy order that carries no commission. *)
Definition commission_free_buy (trade : record) : Prop :=
  exists qty price,
    py_float (get_default "Quantity" "0" trade) = Some qty
    /\ (0 <? qty) = true
    /\ py_float (get_default "T. Price" "0" trade) = Some price
    /\ py_float (get_default "Comm/Fee" "0" trade) = Some 0.

(** A trade whose quantity or price is not a number. *)
Definition unreadable_trade (trade : record) : Prop :=
  py_float (get_default "Quantity" "0" trade) = None
  \/ py_float (get_default "T. Price" "0" trade) = None.

(** The AAPL file with one more purchase whose commission cell is empty. *)
Definition empty_fee_rows : list row :=
  aapl_rows ++ [ ["Trades"; "Data"; "AAPL"; "2"; "120"; ""] ].

(** ** Facts about dictionaries *)

Section DictFacts.

Context {V : Type}.

Implicit Types (d : dict V) (k : string) (v : V).

Lemma get_setitem_same d k v : get k (setitem k v d) = Some v.
Proof.
  induction d as [| [k' v'] d IH]; simpl.
  - now rewrite String.eqb_refl.
  - destruct (String.eqb k k') eqn:E; simpl; rewrite E; auto.
Qed.

Lemma get_setitem_other d k k' v :
  k' <> k -> get k' (setitem k v d) = get k' d.
Proof.
  intros Hne. induction d as [| [k0 v0] d IH]; simpl.
  - apply String.eqb_neq in Hne. now rewrite Hne.
  - destruct (String.eqb k k0) eqn:E; simpl.
    + apply String.eqb_eq in E. subst k0.
      apply String.eqb_neq in Hne. now rewrite Hne.
    + now rewrite IH.
Qed.

Lemma keys_setitem d k v :
  keys (setitem k v d) = if contains k d then keys d else keys d ++ [k].
Proof.
  unfold contains. induction d as [| [k0 v0] d IH]; simpl.
  - reflexivity.
  - destruct (String.eqb k k0) eqn:E; simpl.
    + reflexivity.
    + rewrite IH. now destruct (get k d).
Qed.

Lemma get_None_keys d k : get k d = None <-> ~ In k (keys d).
Proof.
  induction d as [| [k0 v0] d IH]; simpl.
  - tauto.
  - destruct (String.eqb k k0) eqn:E.
    + apply String.eqb_eq in E. subst. split; [discriminate | tauto].
    + apply String.eqb_neq in E. rewrite IH. split.
      * intros H [H1 | H1]; [now apply E | now apply H].
      * tauto.
Qed.

Lemma get_Some_In d k v : get k d = Some v -> In (k, v) d.
Proof.
  induction d as [| [k0 v0] d IH]; simpl; [discriminate |].
  destruct (String.eqb k k0) eqn:E.
  - apply String.eqb_eq in E. intros [= ->]. left. now subst.
  - auto.
Qed.

Lemma In_get_NoDup d k v : NoDup (keys d) -> In (k, v) d -> get k d = Some v.
Proof.
  induction d as [| [k0 v0] d IH]; simpl; [tauto |].
  intros Hnd [H | H].
  - injection H as -> ->. now rewrite String.eqb_refl.
  - inversion Hnd as [| ? ? Hnot Hnd']; subst.
    destruct (String.eqb k k0) eqn:E.
    + apply String.eqb_eq in E. subst. exfalso. apply Hnot.
      change k0 with (fst (k0, v)). now apply in_map.
    + auto.
Qed.

Lemma NoDup_keys_setitem d k v : NoDup (keys d) -> NoDup (keys (setitem k v d)).
Proof.
  intros Hnd. rewrite keys_setitem. unfold contains.
  destruct (get k d) eqn:E; [assumption |].
  apply get_None_keys in E.
  apply NoDup_rev in Hnd. rewrite <- (rev_involutive (keys d ++ [k])).
  apply NoDup_rev. rewrite rev_app_distr. simpl. constructor.
  - now rewrite <- in_rev.
  - assumption.
Qed.

Lemma get_default_None d k v : get k d = None -> get_default k v d = v.
Proof. intros H. unfold get_default. now rewrite H. Qed.

Lemma get_default_Some d k v x : get k d = Some x -> get_default k v d = x.
Proof. intros H. unfold get_default. now rewrite H. Qed.

Lemma get_app d d' k :
  get k (d ++ d') = match get k d with Some v => Some v | None => get k d' end.
Proof.
  induction d as [| [k0 v0] d IH]; simpl; [reflexivity |].
  now destruct (String.eqb k k0).
Qed.

End DictFacts.

Section GroupFacts.

Context {A : Type}.

Implicit Types (d : dict (list A)) (k : string) (x : A).

Lemma get_setdefault_append_same d k x :
  get k (setdefault_append k x d) =
  Some (match get k d with Some l => l ++ [x] | None => [x] end).
Proof.
  unfold setdefault_append. destruct (get k d); apply get_setitem_same.
Qed.

Lemma get_setdefault_append_other d k k' x :
  k' <> k -> get k' (setdefault_append k x d) = get k' d.
Proof.
  intros Hne. unfold setdefault_append.
  destruct (get k d); now apply get_setitem_other.
Qed.

Lemma keys_setdefault_append d k x :
  keys (setdefault_append k x d) = if contains k d then keys d else keys d ++ [k].
Proof.
  unfold setdefault_append, contains.
  destruct (get k d) eqn:E; rewrite keys_setitem; unfold contains; now rewrite E.
Qed.

Lemma NoDup_keys_setdefault_append d k x :
  NoDup (keys d) -> NoDup (keys (setdefault_append k x d)).
Proof.
  unfold setdefault_append. destruct (get k d); apply NoDup_keys_setitem.
Qed.

Lemma group_sizes_setdefault_append d k x :
  group_sizes (setdefault_append k x d) = S (group_sizes d).
Proof.
  unfold setdefault_append.
  induction d as [| [k0 l0] d IH]; simpl.
  - reflexivity.
  - destruct (String.eqb k k0) eqn:E.
    + unfold group_sizes. simpl. rewrite length_app. simpl. lia.
    + destruct (get k d) eqn:G; simpl; rewrite ?E;
        unfold group_sizes in *; simpl in *; rewrite IH; lia.
Qed.

End GroupFacts.

(** ** Section splitting ([parse_csv_sections]) *)

Section Splitting.

Implicit Types (rows : list row) (acc : dict (list row)) (name : string).

Lemma get_sections_fold rows : forall acc name,
  get name (fold_left Main.sections_step rows acc) =
  match get name acc with
  | Some l => Some (l ++ filter (in_section name) rows)
  | None =>
      match filter (in_section name) rows with
      | [] => None
      | g => Some g
      end
  end.
Proof.
  induction rows as [| r rows IH]; intros acc name; simpl.
  - destruct (get name acc); [now rewrite app_nil_r | reflexivity].
  - rewrite IH. destruct r as [| c0 cells]; simpl; [reflexivity |].
    destruct (String.eqb (strip c0) name) eqn:E.
    + apply String.eqb_eq in E. subst name.
      rewrite get_setdefault_append_same.
      destruct (get (strip c0) acc); [now rewrite <- app_assoc | reflexivity].
    + apply String.eqb_neq in E.
      rewrite get_setdefault_append_other by congruence. reflexivity.
Qed.

Lemma NoDup_keys_sections_fold rows : forall acc,
  NoDup (keys acc) -> NoDup (keys (fold_left Main.sections_step rows acc)).
Proof.
  induction rows as [| r rows IH]; intros acc Hnd; simpl; [assumption |].
  apply IH. destruct r; simpl; [assumption |].
  now apply NoDup_keys_setdefault_append.
Qed.

Lemma group_sizes_sections_fold rows : forall acc,
  group_sizes (fold_left Main.sections_step rows acc) =
  (group_sizes acc + List.length (filter nonblank rows))%nat.
Proof.
  induction rows as [| r rows IH]; intros acc; simpl; [lia |].
  rewrite IH. destruct r; simpl; [reflexivity |].
  rewrite group_sizes_setdefault_append. lia.
Qed.

(** C8. Section splitting is a partition of the non-blank rows: the
    section names are distinct; the group of a name is exactly the rows
    whose stripped first cell is that name, in file order and never
    empty; hence a row lies in a group if and only if it is a row of the
    file with a first cell that strips to the group's name, a row
    without cells lies in no group, every other row is found in the
    group of its stripped first cell, and the group sizes add up to the
    number of non-blank rows. *)
Theorem parse_csv_sections_partition rows :
  let sections := Main.parse_csv_sections rows in
  NoDup (keys sections)
  /\ (forall name group, In (name, group) sections ->
        group <> [] /\ group = filter (in_section name) rows)
  /\ (forall name group r, In (name, group) sections ->
        (In r group <-> In r rows /\ in_section name r = true))
  /\ (forall name group, In (name, group) sections -> ~ In [] group)
  /\ (forall c0 cells, In (c0 :: cells) rows ->
        exists group, get (strip c0) sections = Some group
                      /\ In (c0 :: cells) group)
  /\ group_sizes sections = List.length (filter nonblank rows).
Proof.
  intros sections.
  assert (Hnd : NoDup (keys sections))
    by (apply NoDup_keys_sections_fold; constructor).
  assert (Hgroup : forall name group, In (name, group) sections ->
            group <> [] /\ group = filter (in_section name) rows).
  { intros name group Hin.
    apply (In_get_NoDup _ _ _ Hnd) in Hin.
    unfold sections, Main.parse_csv_sections in Hin.
    rewrite get_sections_fold in Hin. simpl in Hin.
    destruct (filter (in_section name) rows) eqn:F; [discriminate |].
    injection Hin as <-. split; [discriminate | reflexivity]. }
  repeat split.
  - exact Hnd.
  - now apply Hgroup in H.
  - now apply Hgroup in H.
  - apply Hgroup in H as [_ ->]. rewrite filter_In in H0. tauto.
  - apply Hgroup in H as [_ ->]. rewrite filter_In in H0. tauto.
  - intros [Hr Hs]. apply Hgroup in H as [_ ->]. now apply filter_In.
  - intros name group Hin Hblank.
    apply Hgroup in Hin as [_ ->]. apply filter_In in Hblank as [_ Hb].
    discriminate.
  - intros c0 cells Hin.
    unfold sections, Main.parse_csv_sections. rewrite get_sections_fold. simpl.
    assert (Hf : In (c0 :: cells) (filter (in_section (strip c0)) rows)).
    { apply filter_In. split; [assumption |]. simpl. apply String.eqb_refl. }
    destruct (filter (in_section (strip c0)) rows) eqn:F; [contradiction |].
    eexists. split; [reflexivity | assumption].
  - unfold sections, Main.parse_csv_sections.
    rewrite group_sizes_sections_fold. reflexivity.
Qed.

End Splitting.

Example parse_csv_sections_example :
  Main.parse_csv_sections
    [ ["Trades"; "Header"; "Symbol"]; []; [" Notes "]; ["Trades "; "Data"; "AAPL"] ]
  = [ ("Trades", [ ["Trades"; "Header"; "Symbol"]; ["Trades "; "Data"; "AAPL"] ]);
      ("Notes", [ [" Notes "] ]) ].
Proof. reflexivity. Qed.

(** ** Grouping by symbol (second loop of [process_trades]) *)

Section Grouping.

Implicit Types (trades : list record) (acc : dict (list record)) (s : string).

Lemma group_step_spec acc (t : record) :
  Main.group_step acc t =
  match grouping_symbol t with
  | Some s => setdefault_append s t acc
  | None => acc
  end.
Proof.
  unfold Main.group_step, grouping_symbol.
  destruct (get "Symbol" t) as [s |]; [| reflexivity].
  now destruct (String.eqb s "").
Qed.

Lemma get_group_fold trades : forall acc s,
  get s (fold_left Main.group_step trades acc) =
  match get s acc with
  | Some l => Some (l ++ filter (symbol_is s) trades)
  | None =>
      match filter (symbol_is s) trades with
      | [] => None
      | g => Some g
      end
  end.
Proof.
  induction trades as [| t trades IH]; intros acc s; simpl.
  - destruct (get s acc); [now rewrite app_nil_r | reflexivity].
  - rewrite IH, group_step_spec. unfold symbol_is.
    destruct (grouping_symbol t) as [s' |]; [| reflexivity].
    destruct (String.eqb s' s) eqn:E.
    + apply String.eqb_eq in E. subst s'.
      rewrite get_setdefault_append_same.
      destruct (get s acc); [now rewrite <- app_assoc | reflexivity].
    + apply String.eqb_neq in E.
      rewrite get_setdefault_append_other by congruence. reflexivity.
Qed.

Lemma filter_filter_andb {A : Type} (f g : A -> bool) (l : list A) :
  filter f (filter g l) = filter (fun x => g x && f x) l.
Proof.
  induction l as [| x l IH]; simpl; [reflexivity |].
  destruct (g x); simpl; [destruct (f x) |]; now rewrite IH.
Qed.

Lemma contains_setdefault_append acc s (t : record) k :
  contains k (setdefault_append s t acc) = String.eqb k s || contains k acc.
Proof.
  unfold contains. destruct (String.eqb k s) eqn:E.
  - apply String.eqb_eq in E. subst k. now rewrite get_setdefault_append_same.
  - apply String.eqb_neq in E. now rewrite get_setdefault_append_other.
Qed.

Lemma keys_group_fold trades : forall acc,
  keys (fold_left Main.group_step trades acc) =
  keys acc ++ filter (fun k => negb (contains k acc)) (first_seen (symbols_of trades)).
Proof.
  induction trades as [| t trades IH]; intros acc; simpl.
  - now rewrite app_nil_r.
  - rewrite IH, group_step_spec. unfold symbols_of. simpl.
    destruct (grouping_symbol t) as [s |]; simpl; [| reflexivity].
    fold (symbols_of trades).
    rewrite keys_setdefault_append, filter_filter_andb.
    assert (Hext : filter (fun k => negb (contains k (setdefault_append s t acc)))
                          (first_seen (symbols_of trades)) =
                   filter (fun x => negb (String.eqb x s) && negb (contains x acc))
                          (first_seen (symbols_of trades))).
    { apply filter_ext. intros k. rewrite contains_setdefault_append.
      now destruct (String.eqb k s), (contains k acc). }
    rewrite Hext. destruct (contains s acc); simpl; [reflexivity |].
    now rewrite <- app_assoc.
Qed.

Lemma NoDup_first_seen (l : list string) : NoDup (first_seen l).
Proof.
  induction l as [| x l IH]; simpl; constructor.
  - intros Hin. apply filter_In in Hin as [_ Hx].
    now rewrite String.eqb_refl in Hx.
  - now apply NoDup_filter.
Qed.

Lemma group_fold_filter trades : forall acc,
  fold_left Main.group_step trades acc =
  fold_left Main.group_step (filter has_symbol trades) acc.
Proof.
  induction trades as [| t trades IH]; intros acc; simpl; [reflexivity |].
  unfold has_symbol at 1. rewrite group_step_spec.
  destruct (grouping_symbol t) as [s |] eqn:G; simpl.
  - rewrite group_step_spec, G. apply IH.
  - apply IH.
Qed.

End Grouping.


(** ** Asset metrics ([compute_asset_metrics]) *)

Section PerSymbol.

(** A loop [for symbol, trades in d.items(): metrics[symbol] = f(symbol, trades)]. *)

Context {A B : Type} (f : string -> A -> B) (step : dict B -> string * A -> dict B).

Hypothesis step_eq :
  forall metrics item, step metrics item = setitem (fst item) (f (fst item) (snd item)) metrics.

Lemma get_items_fold (d : dict A) : forall (acc : dict B) (s : string),
  get s (fold_left step d acc) =
  match get s (rev d) with
  | Some x => Some (f s x)
  | None => get s acc
  end.
Proof.
  induction d as [| [k x] d IH]; intros acc s; simpl; [reflexivity |].
  rewrite IH, get_app, step_eq. destruct (get s (rev d)); [reflexivity |].
  simpl. destruct (String.eqb s k) eqn:E.
  - apply String.eqb_eq in E. subst k. apply get_setitem_same.
  - apply String.eqb_neq in E. now apply get_setitem_other.
Qed.

Lemma get_items_of_key (d : dict A) (s : string) :
  In s (keys d) ->
  exists x, In (s, x) d /\ get s (fold_left step d []) = Some (f s x).
Proof.
  intros Hin. rewrite get_items_fold.
  destruct (get s (rev d)) as [x |] eqn:G.
  - exists x. split; [| reflexivity].
    apply get_Some_In in G. now apply in_rev.
  - apply get_None_keys in G. exfalso. apply G.
    unfold keys in *. rewrite map_rev. now apply in_rev in Hin.
Qed.

Lemma contains_setitem (acc : dict B) (s k : string) (v : B) :
  contains k (setitem s v acc) = String.eqb k s || contains k acc.
Proof.
  unfold contains. destruct (String.eqb k s) eqn:E.
  - apply String.eqb_eq in E. subst k. now rewrite get_setitem_same.
  - apply String.eqb_neq in E. now rewrite get_setitem_other.
Qed.

Lemma keys_items_fold (d : dict A) : forall acc : dict B,
  keys (fold_left step d acc) =
  keys acc ++ filter (fun k => negb (contains k acc)) (first_seen (keys d)).
Proof.
  induction d as [| [s x] d IH]; intros acc; simpl.
  - now rewrite app_nil_r.
  - rewrite IH, step_eq. simpl. rewrite keys_setitem, filter_filter_andb.
    assert (Hext : filter (fun k => negb (contains k (setitem s (f s x) acc)))
                          (first_seen (keys d)) =
                   filter (fun y => negb (String.eqb y s) && negb (contains y acc))
                          (first_seen (keys d))).
    { apply filter_ext. intros k. rewrite contains_setitem.
      now destruct (String.eqb k s), (contains k acc). }
    rewrite Hext. destruct (contains s acc); simpl; [reflexivity |].
    now rewrite <- app_assoc.
Qed.

End PerSymbol.

Lemma filter_not_contains_nil {V : Type} (l : list string) :
  filter (fun k => negb (contains k ([] : dict V))) l = l.
Proof.
  induction l as [| x l IH]; [reflexivity |]. simpl in *. now rewrite IH.
Qed.

Lemma first_seen_NoDup (l : list string) : NoDup l -> first_seen l = l.
Proof.
  induction 1 as [| x l Hnot _ IH]; simpl; [reflexivity |].
  rewrite IH. f_equal. clear IH.
  induction l as [| y l IHl]; simpl; [reflexivity |].
  destruct (String.eqb y x) eqn:E.
  - apply String.eqb_eq in E. subst y. exfalso. apply Hnot. now left.
  - simpl. f_equal. apply IHl. intros Hin. apply Hnot. now right.
Qed.

(** Every grouped symbol gets the metrics of one of its trade lists (the
    only one, keys being unique in a dictionary). *)
Lemma metrics_of_symbol (prices : dict float) (summary : dict record)
  (by_symbol : dict (list record)) (s : string) :
  In s (keys by_symbol) ->
  exists trades,
    In (s, trades) by_symbol
    /\ get s (Main.compute_asset_metrics by_symbol summary prices) =
       Some (Main.symbol_metrics prices summary s trades).
Proof.
  apply (get_items_of_key (Main.symbol_metrics prices summary)). reflexivity.
Qed.

Lemma metrics_of_symbol_mexem (prices : dict float) (summary : dict record)
  (by_symbol : dict (list record)) (s : string) :
  In s (keys by_symbol) ->
  exists trades,
    In (s, trades) by_symbol
    /\ get s (Mexem.compute_asset_metrics by_symbol summary prices) =
       Some (Mexem.symbol_metrics prices summary s trades).
Proof.
  apply (get_items_of_key (Mexem.symbol_metrics prices summary)). reflexivity.
Qed.

(** The metrics dictionary lists the symbols in the order of the grouping. *)
Lemma keys_compute_asset_metrics (prices : dict float) (summary : dict record)
  (by_symbol : dict (list record)) :
  NoDup (keys by_symbol) ->
  keys (Main.compute_asset_metrics by_symbol summary prices) = keys by_symbol.
Proof.
  intros Hnd. unfold Main.compute_asset_metrics.
  rewrite (keys_items_fold (Main.symbol_metrics prices summary)) by reflexivity.
  simpl. rewrite (filter_not_contains_nil (V := Asset.metrics)).
  now apply first_seen_NoDup.
Qed.

(** C9. Grouping of the extracted trade records: the symbols appear in
    first-seen order; the group of a symbol is exactly the records that
    carry it, in extraction order; a record whose [Symbol] is absent or
    empty lies in no group, every other record lies in the group of its
    symbol; and the grouping is the one obtained after removing the
    records without a symbol, so they reach no later computation: the
    asset metrics list exactly the first-seen symbols. *)
Theorem process_trades_grouping (rows : list row) :
  let trades := Main.extract_trades rows in
  let by_symbol := Main.process_trades rows in
  keys by_symbol = first_seen (symbols_of trades)
  /\ (forall s, get s by_symbol =
                match filter (symbol_is s) trades with
                | [] => None
                | g => Some g
                end)
  /\ (forall t s group,
        get "Symbol" t = None \/ get "Symbol" t = Some "" ->
        In (s, group) by_symbol -> ~ In t group)
  /\ (forall t s, In t trades -> get "Symbol" t = Some s -> s <> "" ->
        exists group, get s by_symbol = Some group /\ In t group)
  /\ by_symbol = Main.group_by_symbol (filter has_symbol trades)
  /\ (forall summary prices,
        keys (Main.compute_asset_metrics by_symbol summary prices) =
        first_seen (symbols_of trades)).
Proof.
  intros trades by_symbol.
  assert (Hkeys : keys by_symbol = first_seen (symbols_of trades)).
  { unfold by_symbol, Main.process_trades, Main.group_by_symbol.
    rewrite keys_group_fold. simpl. fold trades.
    generalize (first_seen (symbols_of trades)). intros l.
    induction l as [| x l IHl]; [reflexivity |].
    simpl in *. now rewrite IHl. }
  assert (Hget : forall s, get s by_symbol =
                 match filter (symbol_is s) trades with
                 | [] => None
                 | g => Some g
                 end).
  { intros s. unfold by_symbol, Main.process_trades, Main.group_by_symbol.
    now rewrite get_group_fold. }
  split; [exact Hkeys |]. split; [exact Hget |]. split; [| split; [| split]].
  - intros t s group Hsym Hin Ht.
    assert (Hnd : NoDup (keys by_symbol))
      by (rewrite Hkeys; apply NoDup_first_seen).
    apply (In_get_NoDup _ _ _ Hnd) in Hin. rewrite Hget in Hin.
    destruct (filter (symbol_is s) trades) eqn:F; [discriminate |].
    injection Hin as <-. rewrite <- F in Ht.
    apply filter_In in Ht as [_ Ht]. unfold symbol_is, grouping_symbol in Ht.
    destruct Hsym as [Hsym | Hsym]; rewrite Hsym in Ht; discriminate.
  - intros t s Hin Hsym Hne. rewrite Hget.
    assert (Hf : In t (filter (symbol_is s) trades)).
    { apply filter_In. split; [assumption |].
      unfold symbol_is, grouping_symbol. rewrite Hsym.
      apply String.eqb_neq in Hne. rewrite Hne. apply String.eqb_refl. }
    destruct (filter (symbol_is s) trades); [contradiction |].
    eexists. split; [reflexivity | assumption].
  - unfold by_symbol, Main.process_trades, Main.group_by_symbol.
    apply group_fold_filter.
  - intros summary prices. rewrite keys_compute_asset_metrics; [exact Hkeys |].
    rewrite Hkeys. apply NoDup_first_seen.
Qed.


Example process_trades_example :
  Main.process_trades
    [ ["Trades"; "Data"; "EARLY"; "1"];
      ["Trades"; "Header"; "Symbol"; "Quantity"];
      ["Trades"; "Data"; "MSFT"; "1"];
      ["Trades"; "Data"; ""; "2"];
      ["Trades"; "Total"; "MSFT"; "3"];
      ["Trades"; "data"; "AAPL"; "4"];
      ["Trades"; "Data"];
      ["Trades"; "Data"; "MSFT"; "5"; "extra"] ]
  = [ ("MSFT", [ [("Symbol", "MSFT"); ("Quantity", "1")];
                 [("Symbol", "MSFT"); ("Quantity", "5")] ]);
      ("AAPL", [ [("Symbol", "AAPL"); ("Quantity", "4")] ]) ].
Proof. reflexivity. Qed.

(** A file with a trades section only. *)
Lemma load_and_process_trades_only (prices : dict float) (rows trades_rows : list row) :
  Main.parse_csv_sections rows = [("Trades", trades_rows)] ->
  Main.load_and_process prices rows =
  Return {| current_prices := prices;
            sections := [("Trades", trades_rows)];
            trades_by_symbol := Main.process_trades trades_rows;
            realized_summary := [];
            deposits := [];
            asset_metrics :=
              Main.compute_asset_metrics (Main.process_trades trades_rows) [] prices |}.
Proof.
  intros Hs. unfold Main.load_and_process. rewrite Hs. reflexivity.
Qed.

Lemma load_and_process_trades_only_mexem (prices : dict float)
  (rows trades_rows : list row) :
  Mexem.parse_csv_sections rows = [("Trades", trades_rows)] ->
  Mexem.load_and_process prices rows =
  Return {| current_prices := prices;
            sections := [("Trades", trades_rows)];
            trades_by_symbol := Mexem.process_trades trades_rows;
            realized_summary := [];
            deposits := [];
            asset_metrics :=
              Mexem.compute_asset_metrics (Mexem.process_trades trades_rows) [] prices |}.
Proof.
  intros Hs. unfold Mexem.load_and_process. rewrite Hs. reflexivity.
Qed.

Lemma aapl_trades_by_symbol :
  Main.process_trades aapl_rows =
  [("AAPL", [trade_of "AAPL" "10" "100" "1"; trade_of "AAPL" "5" "110" "0.5"])]
  /\ Mexem.process_trades aapl_rows = Main.process_trades aapl_rows.
Proof. split; vm_compute; reflexivity. Qed.

(** C1. The AAPL scenario on [main.py]: whatever the price overrides,
    the file is processed without error and the metrics of AAPL have
    total quantity 15, total cost 1548.5 and average purchase price
    1548.5 / 15. *)
Theorem aapl_scenario (prices : dict float) :
  exists st m,
    Main.load_and_process prices aapl_rows = Return st
    /\ get "AAPL" (asset_metrics st) = Some m
    /\ Asset.total_quantity m = 15
    /\ Asset.total_cost m = 1548.5
    /\ Asset.avg_purchase_price m = PFloat (1548.5 / 15).
Proof.
  eexists. eexists. split.
  - apply (load_and_process_trades_only prices aapl_rows aapl_rows).
    vm_compute. reflexivity.
  - cbn [asset_metrics]. rewrite (proj1 aapl_trades_by_symbol). split.
    + reflexivity.
    + cbv [Main.symbol_metrics Asset.total_quantity Asset.total_cost
           Asset.avg_purchase_price].
      repeat split; vm_compute; reflexivity.
Qed.

(** The same file on [mexem.py], which does not subtract commissions:
    the total cost is 10*100 + 5*110. *)
Example aapl_scenario_mexem (prices : dict float) :
  exists st m,
    Mexem.load_and_process prices aapl_rows = Return st
    /\ get "AAPL" (asset_metrics st) = Some m
    /\ Asset.total_quantity m = 15
    /\ Asset.total_cost m = 1550
    /\ Asset.avg_purchase_price m = PFloat (1550 / 15).
Proof.
  eexists. eexists. split.
  - apply (load_and_process_trades_only_mexem prices aapl_rows aapl_rows).
    vm_compute. reflexivity.
  - cbn [asset_metrics]. rewrite (proj2 aapl_trades_by_symbol).
    rewrite (proj1 aapl_trades_by_symbol). split.
    + reflexivity.
    + cbv [Mexem.symbol_metrics Asset.total_quantity Asset.total_cost
           Asset.avg_purchase_price].
      repeat split; vm_compute; reflexivity.
Qed.

(** *** Symbols without an override price *)

(** A finite binary64 number minus itself is [0.0]; an infinity or a NaN
    minus itself is a NaN. *)
Lemma float_sub_diag (x : float) : is_finite x = true -> x - x = 0.
Proof.
  intros Hfin. apply Prim2SF_inj. rewrite sub_spec.
  change (Prim2SF 0) with (S754_zero false).
  revert Hfin. unfold is_finite, is_nan, is_infinity.
  rewrite !eqb_spec, abs_spec.
  change (Prim2SF infinity) with (S754_infinity false).
  destruct (Prim2SF x) as [[|] | [|] | | s m e];
    try reflexivity; try (intros H; discriminate H).
  intros _. unfold SF64sub, SFsub. cbv zeta.
  rewrite Z.sub_diag. reflexivity.
Qed.

(** With no override, the fields of one symbol, read off the loop body. *)
Lemma symbol_metrics_no_override (prices : dict float) (summary : dict record)
  (symbol : string) (trades : list record) :
  get symbol prices = None ->
  let m := Main.symbol_metrics prices summary symbol trades in
  Asset.current_price m = Asset.avg_purchase_price m
  /\ Asset.absolute_pl m =
     Asset.total_quantity m * to_float (Asset.avg_purchase_price m)
     - Asset.total_cost m
  /\ Asset.avg_purchase_price m =
     (if truthy (Asset.total_quantity m)
      then PFloat (Asset.total_cost m / Asset.total_quantity m)
      else PInt 0).
Proof.
  intros Hnone. unfold Main.symbol_metrics. simpl. rewrite Hnone.
  repeat split.
Qed.

(** C4, as the code has it. For a grouped symbol without an override
    price, the current price is the average purchase price itself, the
    average is [total_cost / total_quantity], or the integer 0 when the
    total quantity is zero, and the absolute profit is
    [total_quantity * avg_purchase_price - total_cost]. That difference
    is 0.0 whenever the product gives back the total cost and the total
    cost is finite; for a zero total quantity it is
    [total_quantity * 0 - total_cost]. Nothing more is said about its
    value. *)
Theorem no_override_price (prices : dict float) (summary : dict record)
  (by_symbol : dict (list record)) (symbol : string) :
  In symbol (keys by_symbol) ->
  get symbol prices = None ->
  exists m,
    get symbol (Main.compute_asset_metrics by_symbol summary prices) = Some m
    /\ Asset.current_price m = Asset.avg_purchase_price m
    /\ Asset.absolute_pl m =
       Asset.total_quantity m * to_float (Asset.avg_purchase_price m)
       - Asset.total_cost m
    /\ Asset.avg_purchase_price m =
       (if truthy (Asset.total_quantity m)
        then PFloat (Asset.total_cost m / Asset.total_quantity m)
        else PInt 0)
    /\ (truthy (Asset.total_quantity m) = false ->
        Asset.absolute_pl m = Asset.total_quantity m * 0 - Asset.total_cost m)
    /\ (Asset.total_quantity m * to_float (Asset.avg_purchase_price m)
        = Asset.total_cost m ->
        is_finite (Asset.total_cost m) = true ->
        Asset.absolute_pl m = 0).
Proof.
  intros Hin Hnone.
  destruct (metrics_of_symbol prices summary by_symbol symbol Hin)
    as [trades [_ Hget]].
  eexists. split; [exact Hget |].
  destruct (symbol_metrics_no_override prices summary symbol trades Hnone)
    as [Hcp [Hpl Havg]].
  split; [exact Hcp |]. split; [exact Hpl |]. split; [exact Havg |].
  split.
  - intros Hzero. rewrite Hpl, Havg, Hzero. reflexivity.
  - intros Hvalue Hfin. rewrite Hpl, Hvalue. now apply float_sub_diag.
Qed.

(** The theorem at the AAPL scenario, without overrides: there the
    product [15 * (1548.5 / 15)] gives back 1548.5, and the absolute
    profit is 0.0. *)
Lemma no_override_price_witness :
  exists m,
    get "AAPL" (Main.compute_asset_metrics (Main.process_trades aapl_rows) [] [])
    = Some m
    /\ Asset.current_price m = Asset.avg_purchase_price m
    /\ Asset.absolute_pl m =
       Asset.total_quantity m * to_float (Asset.avg_purchase_price m)
       - Asset.total_cost m
    /\ Asset.avg_purchase_price m =
       (if truthy (Asset.total_quantity m)
        then PFloat (Asset.total_cost m / Asset.total_quantity m)
        else PInt 0)
    /\ Asset.absolute_pl m = 0.
Proof.
  destruct (no_override_price [] [] (Main.process_trades aapl_rows) "AAPL")
    as [m [Hget [Hcp [Hpl [Havg [_ Hexact]]]]]].
  - vm_compute. left. reflexivity.
  - reflexivity.
  - exists m. split; [exact Hget |]. split; [exact Hcp |].
    split; [exact Hpl |]. split; [exact Havg |].
    vm_compute in Hget. injection Hget as Hm. subst m.
    apply Hexact; vm_compute; reflexivity.
Defined.

(** C4 as stated fails: for the position bought at 100 and sold at 110,
    without an override, the total quantity is 0, so the average and the
    current price are the integer 0, and the absolute profit is
    [0 - (-100) = 100], which is not 0. *)
Lemma no_override_price_counterexample :
  exists st m,
    Main.load_and_process [] closed_position_rows = Return st
    /\ get "ACME" (current_prices st) = None
    /\ get "ACME" (asset_metrics st) = Some m
    /\ Asset.total_quantity m = 0
    /\ Asset.total_cost m = (-100)
    /\ Asset.current_price m = Asset.avg_purchase_price m
    /\ Asset.absolute_pl m = 100
    /\ (Asset.absolute_pl m =? 0) = false.
Proof.
  eexists. eexists. split; [reflexivity |].
  split; [reflexivity |].
  split; [vm_compute; reflexivity |].
  repeat split.
Qed.

(** Rounding alone also breaks it, in both variants: for one share
    bought at 100 and eight at 101.01 the total cost is 908.08, and
    [9 * (908.08 / 9) - 908.08] is not 0 in binary64. *)
Example no_override_price_rounding :
  let m := Main.symbol_metrics [] [] "ACME" two_purchases in
  let m' := Mexem.symbol_metrics [] [] "ACME" two_purchases in
  Asset.total_quantity m = 9
  /\ Asset.current_price m = Asset.avg_purchase_price m
  /\ (Asset.absolute_pl m =? 0) = false
  /\ Asset.total_quantity m' = 9
  /\ Asset.current_price m' = Asset.avg_purchase_price m'
  /\ (Asset.absolute_pl m' =? 0) = false.
Proof.
  vm_compute. repeat split.
Qed.

(** The same fields on [mexem.py]. *)
Lemma no_override_price_mexem (prices : dict float) (summary : dict record)
  (by_symbol : dict (list record)) (symbol : string) :
  In symbol (keys by_symbol) ->
  get symbol prices = None ->
  exists m,
    get symbol (Mexem.compute_asset_metrics by_symbol summary prices) = Some m
    /\ Asset.current_price m = Asset.avg_purchase_price m
    /\ Asset.absolute_pl m =
       Asset.total_quantity m * to_float (Asset.avg_purchase_price m)
       - Asset.total_cost m
    /\ Asset.avg_purchase_price m =
       (if truthy (Asset.total_quantity m)
        then PFloat (Asset.total_cost m / Asset.total_quantity m)
        else PInt 0).
Proof.
  intros Hin Hnone.
  destruct (metrics_of_symbol_mexem prices summary by_symbol symbol Hin)
    as [trades [_ Hget]].
  eexists. split; [exact Hget |].
  unfold Mexem.symbol_metrics. simpl. rewrite Hnone. repeat split.
Qed.

(** *** Realized and unrealized totals *)

Lemma performance_cases (entry : record) :
  match py_float (get_default "Realized Total" "0" entry),
        py_float (get_default "Unrealized Total" "0" entry) with
  | Some r, Some u => Main.performance entry = (PFloat r, PFloat u)
  | _, _ => Main.performance entry = (PInt 0, PInt 0)
  end.
Proof.
  unfold Main.performance.
  destruct (py_float (get_default "Realized Total" "0" entry));
    destruct (py_float (get_default "Unrealized Total" "0" entry)); reflexivity.
Qed.

Lemma symbol_metrics_performance (prices : dict float) (summary : dict record)
  (symbol : string) (trades : list record) :
  let m := Main.symbol_metrics prices summary symbol trades in
  Asset.realized_total m = fst (Main.performance (get_default symbol [] summary))
  /\ Asset.unrealized_total m = snd (Main.performance (get_default symbol [] summary)).
Proof. split; reflexivity. Qed.

(** C7. For every grouped symbol: without an entry in the performance
    summary both totals are 0.0; with an entry of which either field
    fails to coerce, both totals are the default 0; and otherwise both
    are the coerced values. No coerced value is ever paired with a
    default. *)
Theorem performance_totals (prices : dict float) (summary : dict record)
  (by_symbol : dict (list record)) (symbol : string) :
  In symbol (keys by_symbol) ->
  exists m,
    get symbol (Main.compute_asset_metrics by_symbol summary prices) = Some m
    /\ (get symbol summary = None ->
        Asset.realized_total m = PFloat 0 /\ Asset.unrealized_total m = PFloat 0)
    /\ (forall entry, get symbol summary = Some entry ->
        py_float (get_default "Realized Total" "0" entry) = None
        \/ py_float (get_default "Unrealized Total" "0" entry) = None ->
        Asset.realized_total m = PInt 0 /\ Asset.unrealized_total m = PInt 0)
    /\ (forall entry r u, get symbol summary = Some entry ->
        py_float (get_default "Realized Total" "0" entry) = Some r ->
        py_float (get_default "Unrealized Total" "0" entry) = Some u ->
        Asset.realized_total m = PFloat r /\ Asset.unrealized_total m = PFloat u).
Proof.
  intros Hin.
  destruct (metrics_of_symbol prices summary by_symbol symbol Hin)
    as [trades [_ Hget]].
  eexists. split; [exact Hget |].
  destruct (symbol_metrics_performance prices summary symbol trades) as [Hr Hu].
  cbv zeta in Hr, Hu. rewrite Hr, Hu. clear Hr Hu.
  split; [| split].
  - intros Hnone. rewrite (get_default_None _ _ _ Hnone). split; reflexivity.
  - intros entry Hsome Hfail. rewrite (get_default_Some _ _ _ _ Hsome).
    pose proof (performance_cases entry) as Hp.
    destruct Hfail as [Hf | Hf]; rewrite Hf in Hp.
    + rewrite Hp. split; reflexivity.
    + destruct (py_float (get_default "Realized Total" "0" entry));
        rewrite Hp; split; reflexivity.
  - intros entry r u Hsome Hr Hu. rewrite (get_default_Some _ _ _ _ Hsome).
    pose proof (performance_cases entry) as Hp.
    rewrite Hr, Hu in Hp. rewrite Hp. split; reflexivity.
Qed.

(** The theorem at a file whose performance row for AAPL has a realized
    total that is not a number (and an unrealized total that is). *)
Lemma performance_totals_witness :
  exists m,
    get "AAPL"
      (Main.compute_asset_metrics
         (Main.process_trades [trades_header;
                               ["Trades"; "Data"; "AAPL"; "10"; "100"; "1"]])
         [("AAPL", [("Symbol", "AAPL"); ("Realized Total", "n/a");
                    ("Unrealized Total", "25.5")])]
         []) = Some m
    /\ Asset.realized_total m = PInt 0
    /\ Asset.unrealized_total m = PInt 0.
Proof.
  destruct (performance_totals []
              [("AAPL", [("Symbol", "AAPL"); ("Realized Total", "n/a");
                         ("Unrealized Total", "25.5")])]
              (Main.process_trades [trades_header;
                                    ["Trades"; "Data"; "AAPL"; "10"; "100"; "1"]])
              "AAPL") as [m [Hget [_ [Hfail _]]]].
  - vm_compute. left. reflexivity.
  - exists m. split; [exact Hget |].
    apply (Hfail [("Symbol", "AAPL"); ("Realized Total", "n/a");
                  ("Unrealized Total", "25.5")]).
    + reflexivity.
    + left. vm_compute. reflexivity.
Defined.

(** *** Order of the trades of a symbol *)

Section OrderIndependence.

(** A left-to-right reduction does not depend on the order of its terms
    when the operation is commutative and associative. *)

Context {A : Type} (op : A -> A -> A).

Hypothesis op_comm : forall x y, op x y = op y x.
Hypothesis op_assoc : forall x y z, op (op x y) z = op x (op y z).

Lemma fold_left_permutation (l l' : list A) :
  Permutation l l' -> forall z, fold_left op l z = fold_left op l' z.
Proof.
  induction 1 as [| x l l' _ IH | x y l | l l' l'' _ IH1 _ IH2]; intros z; simpl.
  - reflexivity.
  - apply IH.
  - f_equal. rewrite !op_assoc. f_equal. apply op_comm.
  - now rewrite IH1.
Qed.

End OrderIndependence.

(** Binary64 addition is not associative. *)
Example float_add_not_associative :
  let x := decimal_value false 1 (-1) in
  let y := decimal_value false 2 (-1) in
  let z := decimal_value false 3 (-1) in
  ((x + y) + z =? x + (y + z)) = false.
Proof. vm_compute. reflexivity. Qed.

Lemma accumulate_fold (trades : list record) : forall acc,
  fold_left Main.accumulate trades acc =
  (fold_left PrimFloat.add (map fst (contributions trades)) (fst acc),
   fold_left PrimFloat.add (map snd (contributions trades)) (snd acc)).
Proof.
  induction trades as [| t trades IH]; intros [q c]; simpl; [reflexivity |].
  rewrite IH. unfold contributions at 3 4. simpl.
  unfold Main.accumulate.
  destruct (Main.trade_numbers t) as [[[qty price] commission] |]; reflexivity.
Qed.

Lemma totals_as_sums (trades : list record) :
  Main.totals trades =
  (float_sum (map fst (contributions trades)),
   float_sum (map snd (contributions trades))).
Proof. unfold Main.totals. now rewrite accumulate_fold. Qed.

(** With a commutative and associative operation in place of binary64
    addition, the reductions of the terms of two orders agree. *)
Corollary terms_reduction_order_independent
  (op : float -> float -> float)
  (op_comm : forall x y, op x y = op y x)
  (op_assoc : forall x y z, op (op x y) z = op x (op y z))
  (trades trades' : list record) (z : float) :
  Permutation trades trades' ->
  fold_left op (map fst (contributions trades)) z =
  fold_left op (map fst (contributions trades')) z
  /\ fold_left op (map snd (contributions trades)) z =
     fold_left op (map snd (contributions trades')) z.
Proof.
  intros Hperm.
  assert (Hc : Permutation (contributions trades) (contributions trades'))
    by (unfold contributions; now apply Permutation_flat_map).
  split; apply fold_left_permutation; auto; now apply Permutation_map.
Qed.

(** C5, as the code has it. Permuting the trades of a symbol permutes
    the per-trade terms of the trades that coerce; the two totals are the
    left-to-right binary64 sums of those terms from 0.0, each in its own
    list order; and reducing the terms of the two orders with one
    commutative and associative operation, from one start value, gives
    one result. Binary64 addition is not such an operation, and nothing
    is said about how the totals of the two orders compare. *)
Theorem aggregation_up_to_order (prices : dict float) (summary : dict record)
  (symbol : string) (trades trades' : list record) :
  Permutation trades trades' ->
  let m := Main.symbol_metrics prices summary symbol trades in
  let m' := Main.symbol_metrics prices summary symbol trades' in
  Permutation (contributions trades) (contributions trades')
  /\ Asset.total_quantity m = float_sum (map fst (contributions trades))
  /\ Asset.total_cost m = float_sum (map snd (contributions trades))
  /\ Asset.total_quantity m' = float_sum (map fst (contributions trades'))
  /\ Asset.total_cost m' = float_sum (map snd (contributions trades'))
  /\ (forall op : float -> float -> float,
      (forall x y, op x y = op y x) ->
      (forall x y z, op (op x y) z = op x (op y z)) ->
      forall z,
        fold_left op (map fst (contributions trades)) z =
        fold_left op (map fst (contributions trades')) z
        /\ fold_left op (map snd (contributions trades)) z =
           fold_left op (map snd (contributions trades')) z).
Proof.
  intros Hperm. simpl. rewrite !totals_as_sums. simpl.
  split; [unfold contributions; now apply Permutation_flat_map |].
  do 4 (split; [reflexivity |]).
  intros op op_comm op_assoc z.
  now apply terms_reduction_order_independent.
Qed.

(** The theorem at the three fractional purchases and their reversal. *)
Lemma aggregation_up_to_order_witness :
  let m := Main.symbol_metrics [] [] "ACME" fractional_trades in
  let m' := Main.symbol_metrics [] [] "ACME" fractional_trades_reversed in
  Permutation (contributions fractional_trades)
              (contributions fractional_trades_reversed)
  /\ Asset.total_quantity m = float_sum (map fst (contributions fractional_trades))
  /\ Asset.total_cost m = float_sum (map snd (contributions fractional_trades))
  /\ Asset.total_quantity m' =
     float_sum (map fst (contributions fractional_trades_reversed))
  /\ Asset.total_cost m' =
     float_sum (map snd (contributions fractional_trades_reversed))
  /\ (forall op : float -> float -> float,
      (forall x y, op x y = op y x) ->
      (forall x y z, op (op x y) z = op x (op y z)) ->
      forall z,
        fold_left op (map fst (contributions fractional_trades)) z =
        fold_left op (map fst (contributions fractional_trades_reversed)) z
        /\ fold_left op (map snd (contributions fractional_trades)) z =
           fold_left op (map snd (contributions fractional_trades_reversed)) z).
Proof.
  apply (aggregation_up_to_order [] [] "ACME" fractional_trades
           fractional_trades_reversed).
  change fractional_trades_reversed with (rev fractional_trades).
  apply Permutation_rev.
Defined.

(** C5 as stated fails: the purchases of 0.1, 0.2 and 0.3 shares at
    price 1 add up to a larger total quantity and total cost in that
    order than in the reverse order. *)
Lemma aggregation_order_counterexample :
  let m := Main.symbol_metrics [] [] "ACME" fractional_trades in
  let m' := Main.symbol_metrics [] [] "ACME" fractional_trades_reversed in
  Permutation fractional_trades fractional_trades_reversed
  /\ (Asset.total_quantity m =? Asset.total_quantity m') = false
  /\ (Asset.total_cost m =? Asset.total_cost m') = false
  /\ (Asset.total_quantity m' <? Asset.total_quantity m) = true
  /\ (Asset.total_cost m' <? Asset.total_cost m) = true.
Proof.
  split.
  - change fractional_trades_reversed with (rev fractional_trades).
    apply Permutation_rev.
  - vm_compute. repeat split.
Qed.

(** The same trades on [mexem.py]: the totals of the two orders differ too. *)
Example aggregation_order_mexem :
  let m := Mexem.symbol_metrics [] [] "ACME" fractional_trades in
  let m' := Mexem.symbol_metrics [] [] "ACME" fractional_trades_reversed in
  (Asset.total_quantity m =? Asset.total_quantity m') = false
  /\ (Asset.total_cost m =? Asset.total_cost m') = false.
Proof.
  vm_compute. split; reflexivity.
Qed.

(** *** Trades with a missing field *)

Lemma py_float_zero : py_float "0" = Some 0.
Proof. reflexivity. Qed.

Lemma get_default_missing (k : string) (trade : record) :
  get k trade = None -> py_float (get_default k "0" trade) = Some 0.
Proof. intros H. unfold get_default. rewrite H. apply py_float_zero. Qed.

(** A trade whose three fields coerce, anywhere in the list of a symbol:
    the totals of the list are the totals of the trades before it, plus
    its quantity and its [quantity * price - commission], carried on
    through the trades after it; and its term stands between the terms of
    the trades before and after. *)
Lemma coercing_trade_in_totals (prices : dict float) (summary : dict record)
  (symbol : string) (before after : list record) (trade : record)
  (qty price commission : float) :
  Main.trade_numbers trade = Some (qty, price, commission) ->
  let m := Main.symbol_metrics prices summary symbol (before ++ trade :: after) in
  Main.totals (before ++ trade :: after) =
    fold_left Main.accumulate after
      (fst (Main.totals before) + qty,
       snd (Main.totals before) + (qty * price - commission))
  /\ Asset.total_quantity m =
     float_sum (map fst (contributions before)
                ++ qty :: map fst (contributions after))
  /\ Asset.total_cost m =
     float_sum (map snd (contributions before)
                ++ (qty * price - commission) :: map snd (contributions after)).
Proof.
  intros Hnum.
  assert (Hc : contributions (before ++ trade :: after) =
               contributions before
               ++ (qty, qty * price - commission) :: contributions after).
  { unfold contributions. rewrite flat_map_app. simpl. now rewrite Hnum. }
  split; [| split].
  - unfold Main.totals. rewrite fold_left_app. simpl.
    unfold Main.accumulate at 2. now rewrite Hnum.
  - change (fst (Main.totals (before ++ trade :: after)) =
            float_sum (map fst (contributions before)
                       ++ qty :: map fst (contributions after))).
    rewrite totals_as_sums, Hc, !map_app. reflexivity.
  - change (snd (Main.totals (before ++ trade :: after)) =
            float_sum (map snd (contributions before)
                       ++ (qty * price - commission)
                          :: map snd (contributions after))).
    rewrite totals_as_sums, Hc, !map_app. reflexivity.
Qed.

(** C10. In the aggregation of [main.py], a trade of a symbol that lacks
    the key [Quantity], [T. Price] or [Comm/Fee], the other two fields
    coercing, is not skipped, wherever it stands in the list of the
    symbol: the missing field counts as 0.0, and the total quantity and
    the total cost of the symbol are the sums over the terms of the
    trades before it, its own quantity and
    [quantity * price - commission], and the terms of the trades after
    it. *)
Theorem missing_field_is_zero (prices : dict float) (summary : dict record)
  (symbol : string) (before after : list record) (trade : record) :
  let trades := before ++ trade :: after in
  let m := Main.symbol_metrics prices summary symbol trades in
  (get "Quantity" trade = None ->
   forall price commission,
     py_float (get_default "T. Price" "0" trade) = Some price ->
     py_float (get_default "Comm/Fee" "0" trade) = Some commission ->
     Main.totals trades =
       fold_left Main.accumulate after
         (fst (Main.totals before) + 0,
          snd (Main.totals before) + (0 * price - commission))
     /\ Asset.total_quantity m =
        float_sum (map fst (contributions before)
                   ++ 0 :: map fst (contributions after))
     /\ Asset.total_cost m =
        float_sum (map snd (contributions before)
                   ++ (0 * price - commission) :: map snd (contributions after)))
  /\ (get "T. Price" trade = None ->
      forall qty commission,
        py_float (get_default "Quantity" "0" trade) = Some qty ->
        py_float (get_default "Comm/Fee" "0" trade) = Some commission ->
        Main.totals trades =
          fold_left Main.accumulate after
            (fst (Main.totals before) + qty,
             snd (Main.totals before) + (qty * 0 - commission))
        /\ Asset.total_quantity m =
           float_sum (map fst (contributions before)
                      ++ qty :: map fst (contributions after))
        /\ Asset.total_cost m =
           float_sum (map snd (contributions before)
                      ++ (qty * 0 - commission) :: map snd (contributions after)))
  /\ (get "Comm/Fee" trade = None ->
      forall qty price,
        py_float (get_default "Quantity" "0" trade) = Some qty ->
        py_float (get_default "T. Price" "0" trade) = Some price ->
        Main.totals trades =
          fold_left Main.accumulate after
            (fst (Main.totals before) + qty,
             snd (Main.totals before) + (qty * price - 0))
        /\ Asset.total_quantity m =
           float_sum (map fst (contributions before)
                      ++ qty :: map fst (contributions after))
        /\ Asset.total_cost m =
           float_sum (map snd (contributions before)
                      ++ (qty * price - 0) :: map snd (contributions after))).
Proof.
  cbv zeta. split; [| split].
  - intros Hq price commission Hp Hc.
    apply coercing_trade_in_totals. unfold Main.trade_numbers.
    now rewrite (get_default_missing _ _ Hq), Hp, Hc.
  - intros Hp qty commission Hq Hc.
    apply coercing_trade_in_totals. unfold Main.trade_numbers.
    now rewrite (get_default_missing _ _ Hp), Hq, Hc.
  - intros Hc qty price Hq Hp.
    apply coercing_trade_in_totals. unfold Main.trade_numbers.
    now rewrite (get_default_missing _ _ Hc), Hq, Hp.
Qed.

(** The theorem at a purchase of 5 shares at 110 with commission 0.5,
    followed by a record of a trades table without a [Comm/Fee] column
    (10 shares at 100): the symbol holds 15 shares at a total cost of
    [549.5 + 1000 = 1549.5]. *)
Lemma missing_field_is_zero_witness :
  let before := [trade_of "AAPL" "5" "110" "0.5"] in
  let trades := before ++ [trade_without_fee_column] in
  let m := Main.symbol_metrics [] [] "AAPL" trades in
  get "Comm/Fee" trade_without_fee_column = None
  /\ Main.totals trades =
     (fst (Main.totals before) + 10,
      snd (Main.totals before) + (10 * 100 - 0))
  /\ Asset.total_quantity m =
     float_sum (map fst (contributions before) ++ [10])
  /\ Asset.total_cost m =
     float_sum (map snd (contributions before) ++ [10 * 100 - 0])
  /\ Asset.total_quantity m = 15
  /\ Asset.total_cost m = decimal_value false 15495 (-1).
Proof.
  cbv zeta. split; [reflexivity |].
  destruct (proj2 (proj2 (missing_field_is_zero [] [] "AAPL"
                            [trade_of "AAPL" "5" "110" "0.5"] []
                            trade_without_fee_column))
              eq_refl 10 100 eq_refl eq_refl) as [Htot [Hq Hc]].
  split; [exact Htot |]. split; [exact Hq |]. split; [exact Hc |].
  split; [rewrite Hq | rewrite Hc]; vm_compute; reflexivity.
Defined.

(** In [mexem.py] a missing [T. Price] counts as 0.0 in the same way for
    a buy order; a missing [Quantity] counts as 0.0, which is no buy
    order, and leaves the totals as they are. *)
Lemma missing_field_is_zero_mexem (trade : record) (acc : float * float) :
  (get "Quantity" trade = None -> Mexem.accumulate acc trade = acc)
  /\ (get "T. Price" trade = None ->
      forall quantity,
        py_float (get_default "Quantity" "0" trade) = Some quantity ->
        (0 <? quantity) = true ->
        Mexem.accumulate acc trade = (fst acc + quantity, snd acc + quantity * 0)).
Proof.
  unfold Mexem.accumulate. split.
  - intros Hq. now rewrite (get_default_missing _ _ Hq).
  - intros Hp quantity Hq Hpos.
    now rewrite Hq, Hpos, (get_default_missing _ _ Hp).
Qed.

(** ** Transaction metrics ([compute_transaction_metrics]) *)

(** [main.py]: when the quantity and the price coerce and [Comm/Fee] does
    not, the call raises [ValueError]. *)
Lemma commission_unguarded (trade : record) (current_price qty price : float) :
  py_float (get_default "Quantity" "0" trade) = Some qty ->
  py_float (get_default "T. Price" "0" trade) = Some price ->
  py_float (get_default "Comm/Fee" "0" trade) = None ->
  Main.compute_transaction_metrics trade current_price = Raise ValueError.
Proof.
  intros Hq Hp Hc. unfold Main.compute_transaction_metrics.
  now rewrite Hq, Hp, Hc.
Qed.

(** [main.py]: when the quantity or the price does not coerce, the call
    returns [None] without reading [Comm/Fee]. *)
Lemma quantity_price_guard (trade : record) (current_price : float) :
  py_float (get_default "Quantity" "0" trade) = None
  \/ py_float (get_default "T. Price" "0" trade) = None ->
  Main.compute_transaction_metrics trade current_price = Return None.
Proof.
  intros [H | H]; unfold Main.compute_transaction_metrics; rewrite H.
  - reflexivity.
  - now destruct (py_float (get_default "Quantity" "0" trade)).
Qed.

(** [main.py]: when all three fields coerce, the result carries the
    commission, and no other field depends on it. *)
Lemma commission_returned (trade : record) (current_price qty price fee : float) :
  py_float (get_default "Quantity" "0" trade) = Some qty ->
  py_float (get_default "T. Price" "0" trade) = Some price ->
  py_float (get_default "Comm/Fee" "0" trade) = Some fee ->
  exists m,
    Main.compute_transaction_metrics trade current_price = Return (Some m)
    /\ Main.Tx.commission m = fee
    /\ Main.Tx.quantity m = qty
    /\ Main.Tx.trade_price m = price
    /\ Main.Tx.cost m = qty * price
    /\ Main.Tx.current_value m = qty * current_price
    /\ Main.Tx.profit_loss m = qty * current_price - qty * price
    /\ Main.Tx.percentage_return m =
       (let r := if truthy (qty * price)
                 then Some ((qty * current_price - qty * price) / (qty * price) * 100)
                 else None in
        if qty <? 0 then option_map PrimFloat.opp r else r).
Proof.
  intros Hq Hp Hc. unfold Main.compute_transaction_metrics.
  rewrite Hq, Hp, Hc. eexists. split; [reflexivity |]. repeat split.
Qed.

(** C2: the code at a purchase whose [Comm/Fee] cell is empty. The
    quantity and the price coerce, the commission does not, and the call
    raises [ValueError] instead of returning a result with commission 0. *)
Theorem commission_failure_raises (current_price : float) :
  py_float (get_default "Quantity" "0" buy_without_fee) = Some 10
  /\ py_float (get_default "T. Price" "0" buy_without_fee) = Some 100
  /\ py_float (get_default "Comm/Fee" "0" buy_without_fee) = None
  /\ Main.compute_transaction_metrics buy_without_fee current_price
     = Raise ValueError.
Proof.
  assert (Hq : py_float (get_default "Quantity" "0" buy_without_fee) = Some 10)
    by (vm_compute; reflexivity).
  assert (Hp : py_float (get_default "T. Price" "0" buy_without_fee) = Some 100)
    by (vm_compute; reflexivity).
  assert (Hc : py_float (get_default "Comm/Fee" "0" buy_without_fee) = None)
    by (vm_compute; reflexivity).
  split; [exact Hq |]. split; [exact Hp |]. split; [exact Hc |].
  exact (commission_unguarded _ current_price _ _ Hq Hp Hc).
Qed.

(** The sign-flip law on [main.py], for a trade whose [Comm/Fee] coerces. *)
Lemma sign_flip_main (trade : record) (current_price qty price fee : float) :
  py_float (get_default "Quantity" "0" trade) = Some qty ->
  py_float (get_default "T. Price" "0" trade) = Some price ->
  py_float (get_default "Comm/Fee" "0" trade) = Some fee ->
  (qty <? 0) = true ->
  (qty * price =? 0) = false ->
  exists m,
    Main.compute_transaction_metrics trade current_price = Return (Some m)
    /\ Main.Tx.percentage_return m =
       Some (- ((Main.Tx.current_value m - Main.Tx.cost m) / Main.Tx.cost m * 100)).
Proof.
  intros Hq Hp Hc Hneg Hcost. unfold Main.compute_transaction_metrics.
  rewrite Hq, Hp, Hc, Hneg. unfold truthy. change PrimFloat.zero with 0.
  rewrite Hcost. simpl. eexists. split; reflexivity.
Qed.

(** A sale of 10 at 100 with commission 1, valued at 110. *)
Lemma sign_flip_main_witness :
  exists m,
    Main.compute_transaction_metrics (trade_of "AAPL" "-10" "100" "1") 110
    = Return (Some m)
    /\ Main.Tx.percentage_return m =
       Some (- ((Main.Tx.current_value m - Main.Tx.cost m) / Main.Tx.cost m * 100)).
Proof.
  apply (sign_flip_main (trade_of "AAPL" "-10" "100" "1") 110 (-10) 100 1);
    reflexivity.
Defined.

(** The sign-flip law on [mexem.py], for every trade whose quantity and
    price coerce. *)
Lemma sign_flip_mexem (trade : record) (current_price quantity trade_price : float) :
  py_float (get_default "Quantity" "0" trade) = Some quantity ->
  py_float (get_default "T. Price" "0" trade) = Some trade_price ->
  (quantity <? 0) = true ->
  (quantity * trade_price =? 0) = false ->
  exists m,
    Mexem.compute_transaction_metrics trade current_price = Some m
    /\ Mexem.Tx.percentage_return m =
       Some (- ((Mexem.Tx.current_value m - Mexem.Tx.cost m) / Mexem.Tx.cost m * 100)).
Proof.
  intros Hq Hp Hneg Hcost. unfold Mexem.compute_transaction_metrics.
  rewrite Hq, Hp, Hneg. unfold truthy. change PrimFloat.zero with 0.
  rewrite Hcost. simpl. eexists. split; reflexivity.
Qed.

(** The same sale on [mexem.py]. *)
Lemma sign_flip_mexem_witness :
  exists m,
    Mexem.compute_transaction_metrics (trade_of "AAPL" "-10" "100" "1") 110
    = Some m
    /\ Mexem.Tx.percentage_return m =
       Some (- ((Mexem.Tx.current_value m - Mexem.Tx.cost m) / Mexem.Tx.cost m * 100)).
Proof.
  apply (sign_flip_mexem (trade_of "AAPL" "-10" "100" "1") 110 (-10) 100);
    reflexivity.
Defined.

(** The law read on the results of [main.py]: every result it returns
    with a negative quantity and a non-zero cost has the negated return. *)
Lemma sign_flip_of_result (trade : record) (current_price : float)
  (m : Main.Tx.metrics) :
  Main.compute_transaction_metrics trade current_price = Return (Some m) ->
  (Main.Tx.quantity m <? 0) = true ->
  (Main.Tx.cost m =? 0) = false ->
  Main.Tx.percentage_return m =
  Some (- ((Main.Tx.current_value m - Main.Tx.cost m) / Main.Tx.cost m * 100)).
Proof.
  unfold Main.compute_transaction_metrics.
  destruct (py_float (get_default "Quantity" "0" trade)) as [qty |];
    [| discriminate].
  destruct (py_float (get_default "T. Price" "0" trade)) as [price |];
    [| discriminate].
  destruct (py_float (get_default "Comm/Fee" "0" trade)) as [fee |];
    [| discriminate].
  intros [= <-]. simpl. intros Hneg Hcost. rewrite Hneg.
  unfold truthy. change PrimFloat.zero with 0. rewrite Hcost. reflexivity.
Qed.

Lemma sign_flip_of_result_witness :
  exists m,
    Main.compute_transaction_metrics (trade_of "AAPL" "-10" "100" "1") 110
    = Return (Some m)
    /\ Main.Tx.percentage_return m =
       Some (- ((Main.Tx.current_value m - Main.Tx.cost m) / Main.Tx.cost m * 100)).
Proof.
  eexists. split; [vm_compute; reflexivity |].
  apply (sign_flip_of_result (trade_of "AAPL" "-10" "100" "1") 110);
    vm_compute; reflexivity.
Defined.

(** C6: the code at a sale of 10 at 100 whose [Comm/Fee] cell is empty.
    The quantity is negative and the cost is -1000, not zero, yet
    [main.py] raises [ValueError] at the commission before it returns any
    percentage return, where [mexem.py] returns the negated return. *)
Theorem sign_flip_not_reached (current_price : float) :
  py_float (get_default "Quantity" "0" sell_without_fee) = Some (-10)
  /\ py_float (get_default "T. Price" "0" sell_without_fee) = Some 100
  /\ ((-10) <? 0) = true
  /\ ((-10) * 100 =? 0) = false
  /\ Main.compute_transaction_metrics sell_without_fee current_price
     = Raise ValueError
  /\ exists m,
       Mexem.compute_transaction_metrics sell_without_fee current_price = Some m
       /\ Mexem.Tx.percentage_return m =
          Some (- ((Mexem.Tx.current_value m - Mexem.Tx.cost m)
                   / Mexem.Tx.cost m * 100)).
Proof.
  assert (Hq : py_float (get_default "Quantity" "0" sell_without_fee) = Some (-10))
    by (vm_compute; reflexivity).
  assert (Hp : py_float (get_default "T. Price" "0" sell_without_fee) = Some 100)
    by (vm_compute; reflexivity).
  assert (Hc : py_float (get_default "Comm/Fee" "0" sell_without_fee) = None)
    by (vm_compute; reflexivity).
  split; [exact Hq |]. split; [exact Hp |].
  split; [vm_compute; reflexivity |]. split; [vm_compute; reflexivity |].
  split; [exact (commission_unguarded _ current_price _ _ Hq Hp Hc) |].
  unfold Mexem.compute_transaction_metrics. rewrite Hq, Hp.
  eexists. split; reflexivity.
Qed.

(** ** Short rows and errors *)

(** [process_trades] passes over every row with fewer than three cells. *)
Lemma trades_step_short (st : option (list string) * list record) (r : row) :
  (List.length r < 3)%nat -> Main.trades_step st r = st.
Proof.
  intros Hlen. unfold Main.trades_step.
  apply Nat.ltb_lt in Hlen. now rewrite Hlen.
Qed.

(** [process_realized_summary] and [process_deposits] read [row[1]] of a
    one-cell row and raise [IndexError]. *)
Lemma summary_step_one_cell (st : option (list string) * dict record) (c0 : string) :
  Main.summary_step st [c0] = Raise IndexError
  /\ Mexem.summary_step st [c0] = Raise IndexError.
Proof. split; reflexivity. Qed.

Lemma deposits_step_one_cell (st : option (list string) * list record) (c0 : string) :
  Main.deposits_step st [c0] = Raise IndexError
  /\ Mexem.deposits_step st [c0] = Raise IndexError.
Proof. split; reflexivity. Qed.

(** A two-cell data row after a header is not skipped there: it yields
    an empty record, stored under the key ["Unknown"]. *)
Example short_summary_row_emits_record :
  Main.process_realized_summary short_summary_rows = Return [("Unknown", [])].
Proof. reflexivity. Qed.

(** C3: the code at a file whose performance summary holds a row made of
    the section name alone. Reading [row[1]] raises [IndexError], which
    ends [load_and_process] in both variants; no metrics are produced. *)
Theorem bare_section_row_raises (prices : dict float) :
  Main.parse_csv_sections bare_summary_rows = [(summary_name, bare_summary_rows)]
  /\ Main.process_realized_summary bare_summary_rows = Raise IndexError
  /\ Main.load_and_process prices bare_summary_rows = Raise IndexError
  /\ Mexem.load_and_process prices bare_summary_rows = Raise IndexError.
Proof. repeat split. Qed.

(** The spec's scenario of a performance row whose realized total is not
    a number: both totals of the symbol are the default 0. *)
Example unparsable_summary_scenario :
  exists st m,
    Main.load_and_process [] unparsable_summary_rows = Return st
    /\ get "AAPL" (asset_metrics st) = Some m
    /\ Asset.realized_total m = PInt 0
    /\ Asset.unrealized_total m = PInt 0.
Proof.
  eexists. eexists. split; [vm_compute; reflexivity |].
  split; [vm_compute; reflexivity |]. split; reflexivity.
Qed.

(** ** Price overrides ([parse_current_prices]) *)

Lemma prices_step_spec (prices : dict float) (entry : string) :
  prices_step prices entry =
  match price_of_entry entry with
  | Some sp => setitem (fst sp) (snd sp) prices
  | None => prices
  end.
Proof.
  unfold prices_step, price_of_entry.
  destruct (split_once "=" entry) as [[symbol price_str] |]; [| reflexivity].
  now destruct (py_float (strip price_str)).
Qed.

Lemma prices_fold_entries (entries : list string) : forall acc : dict float,
  fold_left prices_step entries acc =
  fold_left (fun d sp => setitem (fst sp) (snd sp) d) (price_entries_of entries) acc.
Proof.
  induction entries as [| e entries IH]; intros acc; simpl; [reflexivity |].
  rewrite IH, prices_step_spec. unfold price_entries_of. simpl.
  rewrite fold_left_app. now destruct (price_of_entry e).
Qed.

Lemma price_entries_of_app (l1 l2 : list string) :
  price_entries_of (l1 ++ l2) = price_entries_of l1 ++ price_entries_of l2.
Proof. unfold price_entries_of. apply flat_map_app. Qed.

Lemma get_parse_current_prices (entries : list string) (s : string) :
  get s (parse_current_prices entries) = get s (rev (price_entries_of entries)).
Proof.
  unfold parse_current_prices. rewrite prices_fold_entries.
  rewrite (get_items_fold (fun _ p => p)) by reflexivity.
  now destruct (get s (rev (price_entries_of entries))).
Qed.

(** X4. [parse_current_prices] keeps, for every symbol, the price of the
    last well-formed entry that names it; the symbols come in the order
    of their first well-formed entry; and an entry without [=] or with a
    price that is not a number can be deleted without changing the
    result. *)
Theorem parse_current_prices_last_wins (entries : list string) :
  (forall s, get s (parse_current_prices entries) =
             get s (rev (price_entries_of entries)))
  /\ keys (parse_current_prices entries) = first_seen (keys (price_entries_of entries))
  /\ (forall l1 e l2, entries = l1 ++ e :: l2 -> price_of_entry e = None ->
        parse_current_prices entries = parse_current_prices (l1 ++ l2)).
Proof.
  split; [| split].
  - apply get_parse_current_prices.
  - unfold parse_current_prices. rewrite prices_fold_entries.
    rewrite (keys_items_fold (fun _ p => p)) by reflexivity.
    simpl. apply (filter_not_contains_nil (V := float)).
  - intros l1 e l2 -> He. unfold parse_current_prices.
    rewrite !prices_fold_entries.
    rewrite !price_entries_of_app. unfold price_entries_of at 2. simpl.
    now rewrite He.
Qed.

Example parse_current_prices_example :
  parse_current_prices sample_price_entries = [("AAPL", 151)].
Proof. vm_compute. reflexivity. Qed.

Lemma get_compute_asset_metrics (prices : dict float) (summary : dict record)
  (by_symbol : dict (list record)) (s : string) :
  get s (Main.compute_asset_metrics by_symbol summary prices) =
  match get s (rev by_symbol) with
  | Some trades => Some (Main.symbol_metrics prices summary s trades)
  | None => None
  end.
Proof.
  unfold Main.compute_asset_metrics.
  now rewrite (get_items_fold (Main.symbol_metrics prices summary)) by reflexivity.
Qed.

(** X5. An override given on the command line is the current price of
    its symbol: the current value is [total_quantity * price] and the
    absolute profit is that minus the total cost. Overrides change
    nothing else: total quantity, total cost, average purchase price and
    the realized and unrealized totals are those computed without any
    override. *)
Theorem override_price (entries : list string) (summary : dict record)
  (by_symbol : dict (list record)) (symbol : string) (price : float) :
  In symbol (keys by_symbol) ->
  get symbol (rev (price_entries_of entries)) = Some price ->
  exists m m0,
    get symbol (Main.compute_asset_metrics by_symbol summary
                  (parse_current_prices entries)) = Some m
    /\ get symbol (Main.compute_asset_metrics by_symbol summary []) = Some m0
    /\ Asset.current_price m = PFloat price
    /\ Asset.current_value m = Asset.total_quantity m * price
    /\ Asset.absolute_pl m = Asset.total_quantity m * price - Asset.total_cost m
    /\ Asset.total_quantity m = Asset.total_quantity m0
    /\ Asset.total_cost m = Asset.total_cost m0
    /\ Asset.avg_purchase_price m = Asset.avg_purchase_price m0
    /\ Asset.realized_total m = Asset.realized_total m0
    /\ Asset.unrealized_total m = Asset.unrealized_total m0.
Proof.
  intros Hin Hprice. rewrite !get_compute_asset_metrics.
  destruct (get symbol (rev by_symbol)) as [trades |] eqn:G.
  - eexists. eexists. split; [reflexivity |]. split; [reflexivity |].
    unfold Main.symbol_metrics. simpl.
    rewrite get_parse_current_prices, Hprice.
    repeat split.
  - apply get_None_keys in G. exfalso. apply G.
    unfold keys in *. rewrite map_rev. now apply in_rev in Hin.
Qed.

(** The theorem at the AAPL scenario with the sample command line, whose
    last well-formed entry for AAPL gives 151. *)
Lemma override_price_witness :
  exists m m0,
    get "AAPL" (Main.compute_asset_metrics (Main.process_trades aapl_rows) []
                  (parse_current_prices sample_price_entries)) = Some m
    /\ get "AAPL" (Main.compute_asset_metrics (Main.process_trades aapl_rows) [] [])
       = Some m0
    /\ Asset.current_price m = PFloat 151
    /\ Asset.current_value m = Asset.total_quantity m * 151
    /\ Asset.absolute_pl m = Asset.total_quantity m * 151 - Asset.total_cost m
    /\ Asset.total_quantity m = Asset.total_quantity m0
    /\ Asset.total_cost m = Asset.total_cost m0
    /\ Asset.avg_purchase_price m = Asset.avg_purchase_price m0
    /\ Asset.realized_total m = Asset.realized_total m0
    /\ Asset.unrealized_total m = Asset.unrealized_total m0.
Proof.
  apply (override_price sample_price_entries [] (Main.process_trades aapl_rows)
           "AAPL" 151).
  - vm_compute. left. reflexivity.
  - vm_compute. reflexivity.
Defined.

(** ** Table extraction (first loop of [process_trades]) *)

Section Extraction.

Implicit Types (r : row) (rows : list row) (h : option (list string))
  (acc : list record).

Lemma trades_step_acc h acc r :
  Main.trades_step (h, acc) r =
  (fst (Main.trades_step (h, []) r), acc ++ snd (Main.trades_step (h, []) r)).
Proof.
  unfold Main.trades_step. simpl.
  destruct (List.length r <? 3)%nat; [now rewrite app_nil_r |].
  destruct r as [| c0 [| tag cells]]; try now rewrite app_nil_r.
  destruct (Main.is_header tag); [now rewrite app_nil_r |].
  destruct (Main.is_data tag); [| now rewrite app_nil_r].
  destruct (active h); simpl; [reflexivity | now rewrite app_nil_r].
Qed.

Lemma trades_fold_acc rows : forall h acc,
  fold_left Main.trades_step rows (h, acc) =
  (fst (fold_left Main.trades_step rows (h, [])),
   acc ++ snd (fold_left Main.trades_step rows (h, []))).
Proof.
  induction rows as [| r rows IH]; intros h acc; simpl.
  - now rewrite app_nil_r.
  - rewrite trades_step_acc.
    destruct (Main.trades_step (h, []) r) as [h' new] eqn:E. simpl.
    rewrite IH. rewrite (IH h' new). simpl. now rewrite app_assoc.
Qed.

Lemma header_row_tag r :
  header_row r = true ->
  exists c0 tag cell cells,
    r = c0 :: tag :: cell :: cells /\ Main.is_header tag = true.
Proof.
  unfold header_row, row_tag.
  destruct r as [| c0 [| tag [| cell cells]]]; simpl; try discriminate.
  intros H. now exists c0, tag, cell, cells.
Qed.

Lemma data_row_tag r :
  data_row r = true ->
  exists c0 tag cell cells,
    r = c0 :: tag :: cell :: cells /\ Main.is_data tag = true.
Proof.
  unfold data_row, row_tag.
  destruct r as [| c0 [| tag [| cell cells]]]; simpl; try discriminate.
  intros H. now exists c0, tag, cell, cells.
Qed.

(** No tag is both a header tag and a data tag. *)
Lemma header_not_data (tag : string) :
  Main.is_header tag = true -> Main.is_data tag = false.
Proof.
  unfold Main.is_header, Main.is_data. intros H.
  apply String.eqb_eq in H. now rewrite H.
Qed.

Lemma trades_step_header h acc r :
  header_row r = true ->
  Main.trades_step (h, acc) r = (Some (map strip (skipn 2 r)), acc)
  /\ active (Some (map strip (skipn 2 r))) = Some (map strip (skipn 2 r)).
Proof.
  intros H. apply header_row_tag in H as (c0 & tag & cell & cells & -> & Ht).
  unfold Main.trades_step. simpl. now rewrite Ht.
Qed.

Lemma trades_step_data h header acc r :
  active h = Some header -> data_row r = true ->
  Main.trades_step (h, acc) r = (h, acc ++ [make_record header r]).
Proof.
  intros Ha H. apply data_row_tag in H as (c0 & tag & cell & cells & -> & Ht).
  unfold Main.trades_step. simpl. rewrite Ht.
  destruct (Main.is_header tag) eqn:Hh.
  - apply header_not_data in Hh. congruence.
  - now rewrite Ha.
Qed.

Lemma trades_step_other h acc r :
  header_row r = false -> data_row r = false ->
  Main.trades_step (h, acc) r = (h, acc).
Proof.
  unfold header_row, data_row, row_tag, Main.trades_step. simpl.
  destruct (List.length r <? 3)%nat; [reflexivity |].
  destruct r as [| c0 [| tag cells]]; try reflexivity. simpl.
  now intros -> ->.
Qed.

Lemma trades_step_no_header acc r :
  header_row r = false -> Main.trades_step (None, acc) r = (None, acc).
Proof.
  unfold header_row, row_tag, Main.trades_step. simpl.
  destruct (List.length r <? 3)%nat; [reflexivity |].
  destruct r as [| c0 [| tag cells]]; try reflexivity. simpl.
  intros ->. now destruct (Main.is_data tag).
Qed.

Lemma trades_fold_no_header rows : forall acc,
  forallb (fun r => negb (header_row r)) rows = true ->
  fold_left Main.trades_step rows (None, acc) = (None, acc).
Proof.
  induction rows as [| r rows IH]; intros acc H; simpl; [reflexivity |].
  simpl in H. apply andb_prop in H as [Hr Hrows].
  apply negb_true_iff in Hr. rewrite trades_step_no_header by assumption.
  now apply IH.
Qed.

Lemma trades_fold_one_table rows : forall h header acc,
  active h = Some header ->
  forallb (fun r => negb (header_row r)) rows = true ->
  fold_left Main.trades_step rows (h, acc) =
  (h, acc ++ map (make_record header) (filter data_row rows)).
Proof.
  induction rows as [| r rows IH]; intros h header acc Ha H; simpl.
  - now rewrite app_nil_r.
  - simpl in H. apply andb_prop in H as [Hr Hrows].
    apply negb_true_iff in Hr. destruct (data_row r) eqn:Hd.
    + rewrite (trades_step_data h header) by assumption.
      rewrite (IH h header) by assumption. simpl. now rewrite <- app_assoc.
    + rewrite trades_step_other by assumption. now apply (IH h header).
Qed.

Lemma trades_step_inactive h acc r :
  active h = None -> header_row r = false ->
  Main.trades_step (h, acc) r = (h, acc).
Proof.
  intros Ha. unfold header_row, row_tag, Main.trades_step. simpl.
  destruct (List.length r <? 3)%nat; [reflexivity |].
  destruct r as [| c0 [| tag cells]]; try reflexivity. simpl.
  intros ->. rewrite Ha. now destruct (Main.is_data tag).
Qed.

Lemma length_trades_fold rows : forall h acc,
  (List.length (snd (fold_left Main.trades_step rows (h, acc)))
   <= List.length acc + List.length (filter data_row rows))%nat.
Proof.
  induction rows as [| r rows IH]; intros h acc; cbn [fold_left filter].
  - simpl. lia.
  - destruct (header_row r) eqn:Hh.
    + destruct (trades_step_header h acc r Hh) as [-> _].
      specialize (IH (Some (map strip (skipn 2 r))) acc).
      destruct (data_row r); cbn [List.length]; lia.
    + destruct (data_row r) eqn:Hd.
      * destruct (active h) as [header |] eqn:Ha.
        -- rewrite (trades_step_data h header) by assumption.
           specialize (IH h (acc ++ [make_record header r])).
           rewrite length_app in IH. cbn [List.length] in *. lia.
        -- rewrite trades_step_inactive by assumption.
           specialize (IH h acc). cbn [List.length]. lia.
      * rewrite trades_step_other by assumption. apply IH.
Qed.

End Extraction.

(** X6. A header row starts extraction afresh: the records of a trades
    section are those of the rows before the header row followed by
    those of the rows from the header row on. *)
Theorem extract_trades_at_header (rows1 rows2 : list row) (hr : row) :
  header_row hr = true ->
  Main.extract_trades (rows1 ++ hr :: rows2) =
  Main.extract_trades rows1 ++ Main.extract_trades (hr :: rows2).
Proof.
  intros Hh. unfold Main.extract_trades. rewrite fold_left_app. simpl.
  destruct (fold_left Main.trades_step rows1 (None, [])) as [h1 recs1]. simpl.
  destruct (trades_step_header h1 recs1 hr Hh) as [-> _].
  destruct (trades_step_header None [] hr Hh) as [-> _].
  now rewrite trades_fold_acc.
Qed.

Lemma extract_trades_at_header_witness :
  Main.extract_trades two_table_rows =
  Main.extract_trades (firstn 4 two_table_rows)
  ++ Main.extract_trades (skipn 4 two_table_rows).
Proof.
  apply (extract_trades_at_header (firstn 4 two_table_rows)
           (skipn 5 two_table_rows) ["Trades"; "Header"; "Quantity"; "Symbol"]).
  reflexivity.
Defined.

(** X7. One table: when [hr] is the first header row of the section and
    no other header row follows, the extracted records are exactly the
    records of the data rows after [hr], in order, each pairing the
    stripped header names of [hr] with the stripped cells of its row.
    Rows before [hr], rows with fewer than three cells and rows with any
    other tag yield nothing. *)
Theorem extract_trades_one_table (pre rows : list row) (hr : row) :
  header_row hr = true ->
  forallb (fun r => negb (header_row r)) pre = true ->
  forallb (fun r => negb (header_row r)) rows = true ->
  Main.extract_trades (pre ++ hr :: rows) =
  map (make_record (map strip (skipn 2 hr))) (filter data_row rows).
Proof.
  intros Hh Hpre Hrows. unfold Main.extract_trades.
  rewrite fold_left_app, (trades_fold_no_header pre) by assumption. simpl.
  destruct (trades_step_header None [] hr Hh) as [-> Ha].
  now rewrite (trades_fold_one_table rows _ _ [] Ha Hrows).
Qed.

Lemma extract_trades_one_table_witness :
  Main.extract_trades (firstn 4 two_table_rows) =
  map (make_record (map strip (skipn 2 trades_header)))
      (filter data_row (skipn 2 (firstn 4 two_table_rows))).
Proof.
  apply (extract_trades_one_table (firstn 1 two_table_rows)
           (skipn 2 (firstn 4 two_table_rows)) trades_header); reflexivity.
Defined.

Section ExtractionCount.

Implicit Types (r : row) (rows : list row) (h : option (list string))
  (acc : list record).

Lemma header_row_not_data r : header_row r = true -> data_row r = false.
Proof.
  intros H. apply header_row_tag in H as (c0 & tag & cell & cells & -> & Ht).
  unfold data_row, row_tag. simpl. now apply header_not_data.
Qed.

Lemma length_trades_fold_active rows : forall h header acc,
  active h = Some header ->
  List.length (snd (fold_left Main.trades_step rows (h, acc))) =
  (List.length acc + List.length (filter data_row rows))%nat.
Proof.
  induction rows as [| r rows IH]; intros h header acc Ha; cbn [fold_left filter].
  - simpl. lia.
  - destruct (header_row r) eqn:Hh.
    + destruct (trades_step_header h acc r Hh) as [-> Ha'].
      rewrite (header_row_not_data r Hh). now apply (IH _ _ acc Ha').
    + destruct (data_row r) eqn:Hd.
      * rewrite (trades_step_data h header) by assumption.
        rewrite (IH h header) by assumption.
        rewrite length_app. cbn [List.length]. lia.
      * rewrite trades_step_other by assumption. now apply (IH h header).
Qed.

Lemma trades_fold_no_data rows : forall h acc,
  forallb (fun r => negb (data_row r)) rows = true ->
  snd (fold_left Main.trades_step rows (h, acc)) = acc.
Proof.
  induction rows as [| r rows IH]; intros h acc H; simpl; [reflexivity |].
  simpl in H. apply andb_prop in H as [Hr Hrows]. apply negb_true_iff in Hr.
  destruct (header_row r) eqn:Hh.
  - destruct (trades_step_header h acc r Hh) as [-> _]. now apply IH.
  - rewrite trades_step_other by assumption. now apply IH.
Qed.

Lemma filter_none {A : Type} (f : A -> bool) (l : list A) :
  forallb (fun x => negb (f x)) l = true -> filter f l = [].
Proof.
  induction l as [| x l IH]; simpl; [reflexivity |].
  intros H. apply andb_prop in H as [Hx Hl]. apply negb_true_iff in Hx.
  rewrite Hx. now apply IH.
Qed.

End ExtractionCount.

(** X8. [process_trades] never extracts more records than the section
    has data rows (rows of at least three cells tagged as data), and it
    extracts exactly one per data row when no data row comes before the
    first header row. *)
Theorem extraction_count (rows : list row) :
  (List.length (Main.extract_trades rows) <= List.length (filter data_row rows))%nat
  /\ (forall pre hr rest,
        rows = pre ++ hr :: rest ->
        forallb (fun r => negb (data_row r)) pre = true ->
        header_row hr = true ->
        List.length (Main.extract_trades rows) = List.length (filter data_row rows)).
Proof.
  split.
  - unfold Main.extract_trades.
    pose proof (length_trades_fold rows None []) as H. simpl in H. exact H.
  - intros pre hr rest -> Hpre Hh. unfold Main.extract_trades.
    rewrite fold_left_app. cbn [fold_left].
    destruct (fold_left Main.trades_step pre (None, [])) as [h1 recs1] eqn:E.
    assert (Hrecs : recs1 = []).
    { pose proof (trades_fold_no_data pre None [] Hpre) as H.
      rewrite E in H. exact H. }
    subst recs1. destruct (trades_step_header h1 [] hr Hh) as [-> Ha].
    rewrite (length_trades_fold_active rest _ _ [] Ha).
    rewrite filter_app. cbn [filter]. rewrite (header_row_not_data hr Hh).
    rewrite (filter_none data_row pre Hpre). reflexivity.
Qed.

Lemma extraction_count_witness :
  List.length (Main.extract_trades (skipn 1 two_table_rows)) =
  List.length (filter data_row (skipn 1 two_table_rows)).
Proof.
  apply (proj2 (extraction_count (skipn 1 two_table_rows))
           [] trades_header (skipn 2 two_table_rows)); reflexivity.
Defined.

(** ** Records ([make_record], the dictionary comprehension) *)

Section Records.

Implicit Types (header : list string) (r : row) (cells : list string).

Lemma get_make_record header r (name : string) :
  get name (make_record header r) =
  option_map strip (get name (rev (combine header (skipn 2 r)))).
Proof.
  unfold make_record.
  rewrite (get_items_fold (fun _ cell => strip cell)) by reflexivity.
  now destruct (get name (rev (combine header (skipn 2 r)))).
Qed.

Lemma keys_combine header : forall cells,
  keys (combine header cells) = firstn (List.length cells) header.
Proof.
  induction header as [| k header IH]; intros [| c cells]; simpl;
    try reflexivity.
  f_equal. apply IH.
Qed.

Lemma In_combine_nth header : forall cells i name cell,
  nth_error header i = Some name -> nth_error cells i = Some cell ->
  In (name, cell) (combine header cells).
Proof.
  induction header as [| k header IH]; intros [| c cells] [| i] name cell;
    simpl; try discriminate.
  - intros [= ->] [= ->]. now left.
  - intros Hn Hc. right. now apply (IH cells i).
Qed.

Lemma NoDup_firstn {A : Type} (n : nat) (l : list A) :
  NoDup l -> NoDup (firstn n l).
Proof.
  revert l. induction n as [| n IH]; intros [| x l] H; simpl; try constructor.
  - inversion H as [| ? ? Hx Hl]; subst. intros Hin. apply Hx.
    rewrite <- (firstn_skipn n l). apply in_or_app. now left.
  - inversion H; subst. now apply IH.
Qed.

Lemma get_rev_NoDup {V : Type} (d : dict V) (k : string) (v : V) :
  NoDup (keys d) -> In (k, v) d -> get k (rev d) = Some v.
Proof.
  intros Hnd Hin. apply In_get_NoDup.
  - unfold keys in *. rewrite map_rev. now apply NoDup_rev.
  - now apply in_rev in Hin.
Qed.

End Records.

(** X9. The record of a row under a header of distinct names: the name
    in header column [i] maps to the stripped cell in row column [i + 2];
    a name whose column lies beyond the end of the row is absent; a name
    that is not in the header is absent; and the keys are the header
    names that have a cell, in header order. *)
Theorem make_record_fields (header : list string) (r : row) :
  NoDup header ->
  (forall i name cell,
      nth_error header i = Some name -> nth_error r (i + 2) = Some cell ->
      get name (make_record header r) = Some (strip cell))
  /\ (forall i name,
        nth_error header i = Some name -> nth_error r (i + 2) = None ->
        get name (make_record header r) = None)
  /\ (forall name, ~ In name header -> get name (make_record header r) = None)
  /\ keys (make_record header r) = firstn (List.length r - 2) header.
Proof.
  intros Hnd.
  assert (Hkeys : keys (combine header (skipn 2 r)) =
                  firstn (List.length r - 2) header)
    by now rewrite keys_combine, length_skipn.
  assert (Hndk : NoDup (keys (combine header (skipn 2 r))))
    by (rewrite Hkeys; now apply NoDup_firstn).
  assert (Habsent : forall name, ~ In name (firstn (List.length r - 2) header) ->
                    get name (make_record header r) = None).
  { intros name Hnot. rewrite get_make_record.
    assert (G : get name (rev (combine header (skipn 2 r))) = None).
    { apply get_None_keys. unfold keys in *. rewrite map_rev, <- in_rev.
      now rewrite Hkeys. }
    now rewrite G. }
  split; [| split; [| split]].
  - intros i name cell Hn Hc. rewrite get_make_record.
    rewrite (get_rev_NoDup _ name cell Hndk); [reflexivity |].
    apply (In_combine_nth header (skipn 2 r) i); [assumption |].
    rewrite nth_error_skipn. now rewrite Nat.add_comm.
  - intros i name Hn Hc. apply Habsent. intros Hin.
    apply In_nth_error in Hin as [j Hj].
    assert (Hlt : (j < List.length r - 2)%nat).
    { assert (Hs : nth_error (firstn (List.length r - 2) header) j <> None)
        by congruence.
      apply nth_error_Some in Hs. rewrite length_firstn in Hs. lia. }
    rewrite nth_error_firstn in Hj.
    destruct (j <? List.length r - 2)%nat eqn:E;
      [| apply Nat.ltb_ge in E; lia].
    assert (Hij : i = j).
    { apply (proj1 (NoDup_nth_error header) Hnd).
      - apply nth_error_Some. congruence.
      - congruence. }
    subst j. apply nth_error_None in Hc. lia.
  - intros name Hnot. apply Habsent. intros Hin. apply Hnot.
    rewrite <- (firstn_skipn (List.length r - 2) header).
    apply in_or_app. now left.
  - unfold make_record.
    rewrite (keys_items_fold (fun _ cell => strip cell)) by reflexivity.
    simpl. rewrite (filter_not_contains_nil (V := string)).
    rewrite first_seen_NoDup by assumption. exact Hkeys.
Qed.

(** The theorem at the header of the trades table and a data row that
    stops after the price. *)
Lemma make_record_fields_witness :
  get "T. Price" (make_record (skipn 2 trades_header)
                    ["Trades"; "Data"; "AAPL"; "10"; " 100 "]) = Some "100"
  /\ get "Comm/Fee" (make_record (skipn 2 trades_header)
                       ["Trades"; "Data"; "AAPL"; "10"; " 100 "]) = None.
Proof.
  destruct (make_record_fields (skipn 2 trades_header)
              ["Trades"; "Data"; "AAPL"; "10"; " 100 "]) as [Hpresent [Habsent _]].
  - repeat constructor; simpl; intuition discriminate.
  - split.
    + apply (Hpresent 2%nat "T. Price" " 100 "); reflexivity.
    + apply (Habsent 3%nat "Comm/Fee"); reflexivity.
Defined.

(** ** Performance summary and deposits *)

Section UnguardedExtractors.

Implicit Types (r : row) (rows : list row) (h : option (list string))
  (recs : list record).

Lemma index_by_symbol_snoc recs (data : record) :
  index_by_symbol (recs ++ [data]) =
  setitem (summary_key data) data (index_by_symbol recs).
Proof. unfold index_by_symbol. now rewrite fold_left_app. Qed.

Lemma summary_step_deposits h recs r :
  Main.summary_step (h, index_by_symbol recs) r =
  bind (Main.deposits_step (h, recs) r)
       (fun st => Return (fst st, index_by_symbol (snd st))).
Proof.
  unfold Main.summary_step, Main.deposits_step.
  destruct (getitem r 1) as [tag | e]; simpl; [| reflexivity].
  destruct (Main.is_header tag); [reflexivity |].
  destruct (Main.is_data tag); [| reflexivity].
  destruct (active h); simpl; [| reflexivity].
  now rewrite index_by_symbol_snoc.
Qed.

Lemma summary_fold_deposits rows : forall h recs,
  Main.for_each Main.summary_step rows (h, index_by_symbol recs) =
  bind (Main.for_each Main.deposits_step rows (h, recs))
       (fun st => Return (fst st, index_by_symbol (snd st))).
Proof.
  induction rows as [| r rows IH]; intros h recs; simpl; [reflexivity |].
  rewrite summary_step_deposits.
  destruct (Main.deposits_step (h, recs) r) as [[h' recs'] | e]; simpl;
    [apply IH | reflexivity].
Qed.

Lemma get_index_by_symbol recs (s : string) :
  get s (index_by_symbol recs) =
  find (fun data => String.eqb (summary_key data) s) (rev recs).
Proof.
  unfold index_by_symbol.
  induction recs as [| data recs IH] using rev_ind; [reflexivity |].
  rewrite fold_left_app, rev_app_distr. simpl.
  destruct (String.eqb (summary_key data) s) eqn:E.
  - apply String.eqb_eq in E. subst s. apply get_setitem_same.
  - apply String.eqb_neq in E. rewrite get_setitem_other by congruence.
    exact IH.
Qed.

Lemma deposits_step_outcome h recs r :
  if (List.length r <? 2)%nat
  then Main.deposits_step (h, recs) r = Raise IndexError
  else exists st, Main.deposits_step (h, recs) r = Return st.
Proof.
  unfold Main.deposits_step, getitem.
  destruct r as [| c0 [| tag cells]]; simpl; try reflexivity.
  destruct (Main.is_header tag); [eexists; reflexivity |].
  destruct (Main.is_data tag); [| eexists; reflexivity].
  destruct (active h); eexists; reflexivity.
Qed.

Lemma deposits_fold_outcome rows : forall h recs,
  if existsb (fun r => (List.length r <? 2)%nat) rows
  then Main.for_each Main.deposits_step rows (h, recs) = Raise IndexError
  else exists st, Main.for_each Main.deposits_step rows (h, recs) = Return st.
Proof.
  induction rows as [| r rows IH]; intros h recs; simpl.
  - eexists. reflexivity.
  - pose proof (deposits_step_outcome h recs r) as Hr.
    destruct (List.length r <? 2)%nat; simpl.
    + now rewrite Hr.
    + destruct Hr as [[h' recs'] ->]. simpl. apply IH.
Qed.

Lemma process_deposits_outcome rows :
  if existsb (fun r => (List.length r <? 2)%nat) rows
  then Main.process_deposits rows = Raise IndexError
  else exists recs, Main.process_deposits rows = Return recs.
Proof.
  unfold Main.process_deposits.
  pose proof (deposits_fold_outcome rows None []) as H.
  destruct (existsb (fun r => (List.length r <? 2)%nat) rows).
  - now rewrite H.
  - destruct H as [st ->]. eexists. reflexivity.
Qed.

Lemma process_realized_summary_deposits rows :
  Main.process_realized_summary rows =
  bind (Main.process_deposits rows) (fun recs => Return (index_by_symbol recs)).
Proof.
  unfold Main.process_realized_summary, Main.process_deposits.
  change (@nil (string * record)) with (index_by_symbol []).
  rewrite summary_fold_deposits.
  now destruct (Main.for_each Main.deposits_step rows (None, [])).
Qed.

End UnguardedExtractors.

(** X10. The performance summary is the record extraction of
    [process_deposits] indexed by symbol: both raise on the same rows,
    and when they return, the summary maps a key to the last extracted
    record, in row order, whose [Symbol] is that key, a record without
    [Symbol] counting under ["Unknown"]. *)
Theorem summary_last_wins (rows : list row) :
  match Main.process_deposits rows with
  | Return recs =>
      exists summary,
        Main.process_realized_summary rows = Return summary
        /\ forall s, get s summary =
                     find (fun data => String.eqb (summary_key data) s) (rev recs)
  | Raise e => Main.process_realized_summary rows = Raise e
  end.
Proof.
  rewrite process_realized_summary_deposits.
  destruct (Main.process_deposits rows) as [recs | e]; simpl; [| reflexivity].
  eexists. split; [reflexivity |]. intros s. apply get_index_by_symbol.
Qed.

Lemma process_realized_summary_outcome (rows : list row) :
  if existsb (fun r : row => (List.length r <? 2)%nat) rows
  then Main.process_realized_summary rows = Raise IndexError
  else exists summary, Main.process_realized_summary rows = Return summary.
Proof.
  rewrite process_realized_summary_deposits.
  pose proof (process_deposits_outcome rows) as H.
  destruct (existsb (fun r : row => (List.length r <? 2)%nat) rows).
  - now rewrite H.
  - destruct H as [recs ->]. eexists. reflexivity.
Qed.

(** X11. [process_realized_summary] and [process_deposits] raise
    [IndexError] exactly when some row of theirs has fewer than two
    cells, and return otherwise; they raise no other exception. *)
Theorem unguarded_extractors_outcome (rows : list row) :
  if existsb (fun r : row => (List.length r <? 2)%nat) rows
  then Main.process_realized_summary rows = Raise IndexError
       /\ Main.process_deposits rows = Raise IndexError
  else exists summary recs,
         Main.process_realized_summary rows = Return summary
         /\ Main.process_deposits rows = Return recs.
Proof.
  pose proof (process_realized_summary_outcome rows) as Hs.
  pose proof (process_deposits_outcome rows) as Hd.
  destruct (existsb (fun r : row => (List.length r <? 2)%nat) rows).
  - now split.
  - destruct Hs as [summary Hs]. destruct Hd as [recs Hd].
    now exists summary, recs.
Qed.

(** ** The whole pipeline ([load_and_process]) *)

Section Pipeline.

Implicit Types (r : row) (rows : list row) (name : string).

Lemma get_section rows name :
  get name (Main.parse_csv_sections rows) =
  match filter (in_section name) rows with
  | [] => None
  | g => Some g
  end.
Proof. unfold Main.parse_csv_sections. now rewrite get_sections_fold. Qed.

Lemma section_dispatch {B : Type} (f : list row -> B) rows name :
  match get name (Main.parse_csv_sections rows) with
  | Some rs => f rs
  | None => f []
  end = f (filter (in_section name) rows).
Proof.
  rewrite get_section. now destruct (filter (in_section name) rows).
Qed.

(** Every extractor reads the rows of its own section, in file order. *)
Lemma load_and_process_by_section (prices : dict float) rows :
  Main.load_and_process prices rows =
  bind (Main.process_realized_summary (filter (in_section summary_name) rows))
    (fun summary =>
  bind (Main.process_deposits (filter (in_section deposits_name) rows))
    (fun deposits =>
  Return {| current_prices := prices;
            sections := Main.parse_csv_sections rows;
            trades_by_symbol :=
              Main.process_trades (filter (in_section "Trades") rows);
            realized_summary := summary;
            deposits := deposits;
            asset_metrics :=
              Main.compute_asset_metrics
                (Main.process_trades (filter (in_section "Trades") rows))
                summary prices |})).
Proof.
  unfold Main.load_and_process.
  change (match get "Trades" (Main.parse_csv_sections rows) with
          | Some rs => Main.process_trades rs
          | None => []
          end)
    with (match get "Trades" (Main.parse_csv_sections rows) with
          | Some rs => Main.process_trades rs
          | None => Main.process_trades []
          end).
  rewrite (section_dispatch Main.process_trades).
  change (match get "Realized & Unrealized Performance Summary"
                  (Main.parse_csv_sections rows) with
          | Some rs => Main.process_realized_summary rs
          | None => Return []
          end)
    with (match get summary_name (Main.parse_csv_sections rows) with
          | Some rs => Main.process_realized_summary rs
          | None => Main.process_realized_summary []
          end).
  rewrite (section_dispatch Main.process_realized_summary).
  change (match get "Deposits & Withdrawals" (Main.parse_csv_sections rows) with
          | Some rs => Main.process_deposits rs
          | None => Return []
          end)
    with (match get deposits_name (Main.parse_csv_sections rows) with
          | Some rs => Main.process_deposits rs
          | None => Main.process_deposits []
          end).
  rewrite (section_dispatch Main.process_deposits).
  reflexivity.
Qed.

Lemma existsb_filter {A : Type} (p q : A -> bool) (l : list A) :
  existsb p (filter q l) = existsb (fun x => q x && p x) l.
Proof.
  induction l as [| x l IH]; simpl; [reflexivity |].
  destruct (q x); simpl; now rewrite IH.
Qed.

Lemma existsb_orb {A : Type} (p q : A -> bool) (l : list A) :
  existsb (fun x => p x || q x) l = existsb p l || existsb q l.
Proof.
  induction l as [| x l IH]; simpl; [reflexivity |].
  rewrite IH. destruct (p x), (q x), (existsb p l); reflexivity.
Qed.

End Pipeline.

Lemma load_and_process_fields (prices : dict float) (rows : list row)
  (st : PortfolioAnalyzer) :
  Main.load_and_process prices rows = Return st ->
  exists summary,
    asset_metrics st =
    Main.compute_asset_metrics
      (Main.process_trades (filter (in_section "Trades") rows)) summary prices
    /\ trades_by_symbol st = Main.process_trades (filter (in_section "Trades") rows)
    /\ current_prices st = prices
    /\ realized_summary st = summary.
Proof.
  rewrite load_and_process_by_section.
  destruct (Main.process_realized_summary (filter (in_section summary_name) rows))
    as [summary | e]; simpl; [| discriminate].
  destruct (Main.process_deposits (filter (in_section deposits_name) rows))
    as [deposits | e]; simpl; [| discriminate].
  intros [= <-]. exists summary. repeat split.
Qed.

(** X12. [load_and_process] ends in [IndexError] exactly when a row of
    the performance summary or of the deposits section has a single
    cell. Otherwise it returns, and each part of the result comes from
    the rows of its own section in file order, whatever lies between
    them: the trades grouping from the rows of [Trades], the summary and
    the deposits from theirs, a missing section counting as empty, and
    the asset metrics from that grouping, that summary and the prices. *)
Theorem load_and_process_outcome (prices : dict float) (rows : list row) :
  if existsb (fun r : row => unguarded_row r && (List.length r <? 2)%nat) rows
  then Main.load_and_process prices rows = Raise IndexError
  else exists summary deposits,
    Main.process_realized_summary (filter (in_section summary_name) rows)
    = Return summary
    /\ Main.process_deposits (filter (in_section deposits_name) rows)
       = Return deposits
    /\ Main.load_and_process prices rows =
       Return {| current_prices := prices;
                 sections := Main.parse_csv_sections rows;
                 trades_by_symbol :=
                   Main.process_trades (filter (in_section "Trades") rows);
                 realized_summary := summary;
                 deposits := deposits;
                 asset_metrics :=
                   Main.compute_asset_metrics
                     (Main.process_trades (filter (in_section "Trades") rows))
                     summary prices |}.
Proof.
  rewrite load_and_process_by_section.
  pose proof (process_realized_summary_outcome
                (filter (in_section summary_name) rows)) as Hs.
  pose proof (process_deposits_outcome
                (filter (in_section deposits_name) rows)) as Hd.
  rewrite existsb_filter in Hs, Hd.
  assert (Hcond : existsb (fun r : row => unguarded_row r && (List.length r <? 2)%nat) rows
                  = existsb (fun r : row => in_section summary_name r
                                            && (List.length r <? 2)%nat) rows
                    || existsb (fun r : row => in_section deposits_name r
                                               && (List.length r <? 2)%nat) rows).
  { rewrite <- existsb_orb. clear. induction rows as [| r rows IH]; simpl;
      [reflexivity |]. rewrite IH. unfold unguarded_row.
    f_equal.
    now destruct (in_section summary_name r), (in_section deposits_name r),
      (List.length r <? 2)%nat. }
  rewrite Hcond.
  destruct (existsb (fun r : row => in_section summary_name r
                                    && (List.length r <? 2)%nat) rows).
  - rewrite Hs. reflexivity.
  - destruct Hs as [summary ->]. simpl.
    destruct (existsb (fun r : row => in_section deposits_name r
                                      && (List.length r <? 2)%nat) rows).
    + rewrite Hd. reflexivity.
    + destruct Hd as [deposits ->]. simpl.
      exists summary, deposits. repeat split.
Qed.

(** ** Trades left out of the aggregation *)

Lemma accumulate_skip (acc : float * float) (t : record) :
  Main.trade_numbers t = None -> Main.accumulate acc t = acc.
Proof. intros H. unfold Main.accumulate. now rewrite H. Qed.

Lemma trade_numbers_fail (t : record) :
  py_float (get_default "Quantity" "0" t) = None
  \/ py_float (get_default "T. Price" "0" t) = None
  \/ py_float (get_default "Comm/Fee" "0" t) = None ->
  Main.trade_numbers t = None.
Proof.
  unfold Main.trade_numbers. intros [H | [H | H]]; rewrite H.
  - reflexivity.
  - now destruct (py_float (get_default "Quantity" "0" t)).
  - destruct (py_float (get_default "Quantity" "0" t)); [| reflexivity].
    now destruct (py_float (get_default "T. Price" "0" t)).
Qed.

(** X13. In [main.py], a trade one of whose three fields is not a
    number is left out without any other effect: the metrics of the
    symbol are those of the list without that trade, wherever the trade
    stands in it. *)
Theorem non_numeric_trade_excluded (prices : dict float) (summary : dict record)
  (symbol : string) (l1 l2 : list record) (t : record) :
  py_float (get_default "Quantity" "0" t) = None
  \/ py_float (get_default "T. Price" "0" t) = None
  \/ py_float (get_default "Comm/Fee" "0" t) = None ->
  Main.symbol_metrics prices summary symbol (l1 ++ t :: l2) =
  Main.symbol_metrics prices summary symbol (l1 ++ l2).
Proof.
  intros H. apply trade_numbers_fail in H.
  assert (Ht : Main.totals (l1 ++ t :: l2) = Main.totals (l1 ++ l2)).
  { unfold Main.totals. rewrite !fold_left_app. simpl.
    now rewrite accumulate_skip. }
  unfold Main.symbol_metrics. now rewrite Ht.
Qed.

Lemma non_numeric_trade_excluded_witness :
  Main.symbol_metrics [] [] "AAPL" mixed_trades =
  Main.symbol_metrics [] [] "AAPL"
    [ trade_of "AAPL" "10" "100" "1";
      trade_of "AAPL" "-4" "105" "1";
      trade_of "AAPL" "5" "110" "0.5" ].
Proof.
  apply (non_numeric_trade_excluded [] [] "AAPL"
           [trade_of "AAPL" "10" "100" "1"]
           [trade_of "AAPL" "-4" "105" "1"; trade_of "AAPL" "5" "110" "0.5"]
           (trade_of "AAPL" "n/a" "100" "1")).
  left. vm_compute. reflexivity.
Defined.

Lemma get_default_setitem_other (k k' v default : string) (t : record) :
  k <> k' -> get_default k default (setitem k' v t) = get_default k default t.
Proof.
  intros Hne. unfold get_default. now rewrite get_setitem_other.
Qed.

Lemma mexem_accumulate_fee (acc : float * float) (t : record) (v : string) :
  Mexem.accumulate acc (setitem "Comm/Fee" v t) = Mexem.accumulate acc t.
Proof.
  unfold Mexem.accumulate.
  now rewrite !get_default_setitem_other by discriminate.
Qed.

Lemma mexem_totals_fee (trades : list record) (v : string) : forall acc,
  fold_left Mexem.accumulate (map (setitem "Comm/Fee" v) trades) acc =
  fold_left Mexem.accumulate trades acc.
Proof.
  induction trades as [| t trades IH]; intros acc; simpl; [reflexivity |].
  now rewrite mexem_accumulate_fee, IH.
Qed.

(** X14. [mexem.py] never reads [Comm/Fee]: setting that field of every
    trade to any text changes neither the metrics of the symbol nor the
    metrics of a transaction. *)
Theorem mexem_ignores_commission (prices : dict float) (summary : dict record)
  (symbol : string) (trades : list record) (fee : string) :
  Mexem.symbol_metrics prices summary symbol (map (setitem "Comm/Fee" fee) trades)
  = Mexem.symbol_metrics prices summary symbol trades
  /\ (forall trade current_price,
        Mexem.compute_transaction_metrics (setitem "Comm/Fee" fee trade) current_price
        = Mexem.compute_transaction_metrics trade current_price).
Proof.
  split.
  - unfold Mexem.symbol_metrics, Mexem.totals. now rewrite mexem_totals_fee.
  - intros trade current_price. unfold Mexem.compute_transaction_metrics.
    now rewrite !get_default_setitem_other by discriminate.
Qed.

Lemma mexem_accumulate_skip (acc : float * float) (t : record) :
  py_float (get_default "Quantity" "0" t) = None
  \/ (exists q, py_float (get_default "Quantity" "0" t) = Some q
                /\ (0 <? q) = false)
  \/ py_float (get_default "T. Price" "0" t) = None ->
  Mexem.accumulate acc t = acc.
Proof.
  unfold Mexem.accumulate. intros [H | [[q [H Hq]] | H]].
  - now rewrite H.
  - now rewrite H, Hq.
  - rewrite H. destruct (py_float (get_default "Quantity" "0" t)) as [q |];
      [| reflexivity].
    now destruct (0 <? q).
Qed.

(** X15. [mexem.py] keeps buy orders only: a trade whose quantity is not
    a number, or is a number that is not above zero (a sale, a zero, a
    NaN), or whose price is not a number, is left out, and the metrics
    of the symbol are those of the list without it. *)
Theorem mexem_buy_orders_only (prices : dict float) (summary : dict record)
  (symbol : string) (l1 l2 : list record) (t : record) :
  py_float (get_default "Quantity" "0" t) = None
  \/ (exists q, py_float (get_default "Quantity" "0" t) = Some q
                /\ (0 <? q) = false)
  \/ py_float (get_default "T. Price" "0" t) = None ->
  Mexem.symbol_metrics prices summary symbol (l1 ++ t :: l2) =
  Mexem.symbol_metrics prices summary symbol (l1 ++ l2).
Proof.
  intros H.
  assert (Ht : Mexem.totals (l1 ++ t :: l2) = Mexem.totals (l1 ++ l2)).
  { unfold Mexem.totals. rewrite !fold_left_app. simpl.
    now rewrite mexem_accumulate_skip. }
  unfold Mexem.symbol_metrics. now rewrite Ht.
Qed.

(** The theorem at the sale among the mixed trades. *)
Lemma mexem_buy_orders_only_witness :
  Mexem.symbol_metrics [] [] "AAPL" mixed_trades =
  Mexem.symbol_metrics [] [] "AAPL"
    [ trade_of "AAPL" "10" "100" "1";
      trade_of "AAPL" "n/a" "100" "1";
      trade_of "AAPL" "5" "110" "0.5" ].
Proof.
  apply (mexem_buy_orders_only [] [] "AAPL"
           [trade_of "AAPL" "10" "100" "1"; trade_of "AAPL" "n/a" "100" "1"]
           [trade_of "AAPL" "5" "110" "0.5"]
           (trade_of "AAPL" "-4" "105" "1")).
  right. left. exists (-4). split; vm_compute; reflexivity.
Defined.

(** ** The two variants on exactly spelled tags *)

Section ExactTags.

Lemma exact_tag_agree (tag : string) :
  exact_tag tag = true ->
  Mexem.is_header tag = Main.is_header tag
  /\ Mexem.is_data tag = Main.is_data tag.
Proof.
  unfold exact_tag, Mexem.is_header, Mexem.is_data, Main.is_header, Main.is_data.
  intros H. apply andb_prop in H as [Hh Hd]. split.
  - destruct (String.eqb (strip tag) "Header") eqn:E.
    + apply String.eqb_eq in E. now rewrite E.
    + rewrite orb_false_r in Hh. apply negb_true_iff in Hh. now rewrite Hh.
  - destruct (String.eqb (strip tag) "Data") eqn:E.
    + apply String.eqb_eq in E. now rewrite E.
    + rewrite orb_false_r in Hd. apply negb_true_iff in Hd. now rewrite Hd.
Qed.

Lemma trades_step_agree (st : option (list string) * list record) (r : row) :
  match nth_error r 1 with Some tag => exact_tag tag | None => true end = true ->
  Mexem.trades_step st r = Main.trades_step st r.
Proof.
  unfold Mexem.trades_step, Main.trades_step.
  destruct (List.length r <? 3)%nat; [reflexivity |].
  destruct r as [| c0 [| tag cells]]; try reflexivity. simpl.
  intros H. destruct (exact_tag_agree tag H) as [-> ->]. reflexivity.
Qed.

Lemma summary_step_agree (st : option (list string) * dict record) (r : row) :
  match nth_error r 1 with Some tag => exact_tag tag | None => true end = true ->
  Mexem.summary_step st r = Main.summary_step st r.
Proof.
  unfold Mexem.summary_step, Main.summary_step, getitem.
  destruct (nth_error r 1) as [tag |]; [| reflexivity]. simpl.
  intros H. destruct (exact_tag_agree tag H) as [-> ->]. reflexivity.
Qed.

Lemma deposits_step_agree (st : option (list string) * list record) (r : row) :
  match nth_error r 1 with Some tag => exact_tag tag | None => true end = true ->
  Mexem.deposits_step st r = Main.deposits_step st r.
Proof.
  unfold Mexem.deposits_step, Main.deposits_step, getitem.
  destruct (nth_error r 1) as [tag |]; [| reflexivity]. simpl.
  intros H. destruct (exact_tag_agree tag H) as [-> ->]. reflexivity.
Qed.

Lemma for_each_agree {S : Type} (f g : S -> row -> result S) (rows : list row) :
  (forall st r, In r rows -> f st r = g st r) ->
  forall st, Main.for_each f rows st = Main.for_each g rows st.
Proof.
  induction rows as [| r rows IH]; intros H st; simpl; [reflexivity |].
  rewrite (H st r) by now left.
  destruct (g st r); simpl; [| reflexivity].
  apply IH. intros st' r' Hin. apply H. now right.
Qed.

End ExactTags.

(** X16. On rows whose header and data tags are spelled exactly
    ["Header"] and ["Data"], the extractors of [mexem.py] give what those
    of [main.py] give: the same trades grouping, the same performance
    summary and the same deposits, and the same exception if any. *)
Theorem extractors_agree_on_exact_tags (rows : list row) :
  exact_tags rows = true ->
  Mexem.process_trades rows = Main.process_trades rows
  /\ Mexem.process_realized_summary rows = Main.process_realized_summary rows
  /\ Mexem.process_deposits rows = Main.process_deposits rows.
Proof.
  unfold exact_tags. rewrite forallb_forall. intros H.
  split; [| split].
  - unfold Mexem.process_trades, Main.process_trades. f_equal.
    unfold Mexem.extract_trades, Main.extract_trades. f_equal.
    generalize (@None (list string), @nil record).
    induction rows as [| r rows IH]; intros st; simpl; [reflexivity |].
    rewrite trades_step_agree by (apply H; now left).
    apply IH. intros r' Hin. apply H. now right.
  - unfold Mexem.process_realized_summary, Main.process_realized_summary.
    f_equal. apply for_each_agree. intros st r Hin.
    apply summary_step_agree. now apply H.
  - unfold Mexem.process_deposits, Main.process_deposits.
    f_equal. apply for_each_agree. intros st r Hin.
    apply deposits_step_agree. now apply H.
Qed.

Lemma extractors_agree_on_exact_tags_witness :
  Mexem.process_trades two_table_rows = Main.process_trades two_table_rows
  /\ Mexem.process_realized_summary two_table_rows
     = Main.process_realized_summary two_table_rows
  /\ Mexem.process_deposits two_table_rows = Main.process_deposits two_table_rows.
Proof.
  apply (extractors_agree_on_exact_tags two_table_rows). vm_compute. reflexivity.
Defined.

(** A lower-case tag is a data tag for [main.py] and no tag for [mexem.py]. *)
Example lower_case_tag_differs :
  Main.process_trades [trades_header; ["Trades"; "data"; "AAPL"; "10"; "100"; "1"]]
  = [("AAPL", [trade_of "AAPL" "10" "100" "1"])]
  /\ Mexem.process_trades
       [trades_header; ["Trades"; "data"; "AAPL"; "10"; "100"; "1"]] = [].
Proof. split; reflexivity. Qed.

(** ** Facts about binary64 numbers *)

Section FloatFacts.

Lemma Prim2SF_zero : Prim2SF 0 = S754_zero false.
Proof. reflexivity. Qed.

(** Subtracting [0.0] changes nothing, not even the sign of a zero. *)
Lemma float_sub_zero (x : float) : x - 0 = x.
Proof.
  apply Prim2SF_inj. rewrite sub_spec, Prim2SF_zero. unfold SF64sub.
  now destruct (Prim2SF x) as [[|] | [|] | | [|] m e].
Qed.

(** [x and x >= 0] holds exactly when [x > 0]: a zero and a NaN fail it. *)
Lemma float_positive_test (x : float) : truthy x && (0 <=? x) = (0 <? x).
Proof.
  unfold truthy. change PrimFloat.zero with 0.
  rewrite eqb_spec, leb_spec, ltb_spec, Prim2SF_zero.
  unfold SFeqb, SFleb, SFltb.
  now destruct (Prim2SF x) as [[|] | [|] | | [|] m e].
Qed.

End FloatFacts.

(** ** The two variants on buy orders without commission *)

Lemma accumulate_agree (acc : float * float) (t : record) :
  commission_free_buy t \/ unreadable_trade t ->
  Mexem.accumulate acc t = Main.accumulate acc t.
Proof.
  unfold Mexem.accumulate, Main.accumulate, Main.trade_numbers.
  intros [(qty & price & Hq & Hpos & Hp & Hc) | [H | H]].
  - rewrite Hq, Hp, Hc, Hpos. now rewrite float_sub_zero.
  - now rewrite H.
  - rewrite H. destruct (py_float (get_default "Quantity" "0" t)) as [q |];
      [| reflexivity].
    now destruct (0 <? q).
Qed.

(** X17. On a symbol all of whose trades are buy orders with a numeric
    price and a commission that is absent or exactly 0.0, or have a
    quantity or price that is not a number, [mexem.py] and [main.py]
    compute the same asset metrics: there the two cost policies coincide. *)
Theorem variants_agree_on_commission_free_buys (prices : dict float)
  (summary : dict record) (symbol : string) (trades : list record) :
  Forall (fun t => commission_free_buy t \/ unreadable_trade t) trades ->
  Mexem.symbol_metrics prices summary symbol trades =
  Main.symbol_metrics prices summary symbol trades.
Proof.
  intros H.
  assert (Ht : forall acc, fold_left Mexem.accumulate trades acc =
                           fold_left Main.accumulate trades acc).
  { induction H as [| t trades Ht _ IH]; intros acc; simpl; [reflexivity |].
    now rewrite accumulate_agree, IH. }
  unfold Mexem.symbol_metrics, Main.symbol_metrics, Mexem.totals, Main.totals.
  now rewrite Ht.
Qed.

(** The theorem at the two purchases without commission and a row that
    is no number. *)
Lemma variants_agree_on_commission_free_buys_witness :
  Mexem.symbol_metrics [] [] "ACME"
    (two_purchases ++ [trade_of "ACME" "n/a" "1" "0"]) =
  Main.symbol_metrics [] [] "ACME"
    (two_purchases ++ [trade_of "ACME" "n/a" "1" "0"]).
Proof.
  apply (variants_agree_on_commission_free_buys [] [] "ACME"
           (two_purchases ++ [trade_of "ACME" "n/a" "1" "0"])).
  apply Forall_cons; [| apply Forall_cons; [| apply Forall_cons; [| apply Forall_nil]]].
  - left. exists 1, 100. repeat split; vm_compute; reflexivity.
  - left. exists 8, (decimal_value false 10101 (-2)).
    repeat split; vm_compute; reflexivity.
  - right. left. vm_compute. reflexivity.
Defined.

(** ** Display ([display_metrics] of main.py) *)

Section DisplayFacts.

Variables (format_2f str_float : float -> string).

Lemma for_printed_outcome {A : Type} (body : A -> Display.printed unit)
  (bad : A -> bool) (e : exn) (l : list A) :
  (forall x, snd (body x) = if bad x then Raise e else Return tt) ->
  snd (Display.for_printed body l) = if existsb bad l then Raise e else Return tt.
Proof.
  intros Hbody. induction l as [| x l IH]; simpl; [reflexivity |].
  unfold Display.and_then. rewrite Hbody.
  destruct (bad x); simpl; [reflexivity | exact IH].
Qed.

Lemma asset_block_returns (use_color : bool) (item : string * Asset.metrics) :
  snd (Display.asset_block format_2f str_float use_color item) = Return tt.
Proof. reflexivity. Qed.

Lemma compute_transaction_metrics_outcome (trade : record) (current_price : float) :
  if fee_unreadable trade
  then Main.compute_transaction_metrics trade current_price = Raise ValueError
  else exists tx, Main.compute_transaction_metrics trade current_price = Return tx.
Proof.
  unfold fee_unreadable, Main.compute_transaction_metrics.
  destruct (py_float (get_default "Quantity" "0" trade));
    [| eexists; reflexivity].
  destruct (py_float (get_default "T. Price" "0" trade));
    [| eexists; reflexivity].
  destruct (py_float (get_default "Comm/Fee" "0" trade));
    [eexists |]; reflexivity.
Qed.

Lemma transaction_block_outcome (use_color : bool) (current_price : num)
  (item : nat * record) :
  snd (Display.transaction_block format_2f str_float use_color current_price item)
  = if fee_unreadable (snd item) then Raise ValueError else Return tt.
Proof.
  unfold Display.transaction_block, Display.and_then, Display.call.
  pose proof (compute_transaction_metrics_outcome (snd item) (to_float current_price))
    as H.
  destruct (fee_unreadable (snd item)).
  - now rewrite H.
  - destruct H as [[tx |] ->]; reflexivity.
Qed.

Lemma existsb_enumerate1 {A : Type} (p : A -> bool) (l : list A) :
  existsb (fun item => p (snd item)) (Display.enumerate1 l) = existsb p l.
Proof.
  unfold Display.enumerate1. generalize 1%nat.
  induction l as [| x l IH]; intros n; simpl; [reflexivity |].
  now rewrite IH.
Qed.

Lemma symbol_block_outcome (st : PortfolioAnalyzer) (use_color : bool)
  (item : string * list record) :
  snd (Display.symbol_block format_2f str_float st use_color item)
  = if existsb fee_unreadable (snd item) then Raise ValueError else Return tt.
Proof.
  unfold Display.symbol_block, Display.and_then. simpl.
  rewrite (for_printed_outcome _ (fun it => fee_unreadable (snd it)) ValueError)
    by (intros x; apply transaction_block_outcome).
  now rewrite existsb_enumerate1.
Qed.

End DisplayFacts.

(** X18. [display_metrics] raises [ValueError] exactly when the
    transaction listing is asked for and some grouped trade has a
    numeric quantity and price and a [Comm/Fee] that is not a number;
    in every other case it returns, and it raises nothing else. *)
Theorem display_metrics_outcome (format_2f str_float : float -> string)
  (st : PortfolioAnalyzer) (use_color detailed detailed_tx : bool) :
  snd (Display.display_metrics format_2f str_float st use_color detailed detailed_tx)
  = if detailed_tx
       && existsb (fun item : string * list record =>
                     existsb fee_unreadable (snd item)) (trades_by_symbol st)
    then Raise ValueError
    else Return tt.
Proof.
  unfold Display.display_metrics, Display.and_then. simpl.
  rewrite (for_printed_outcome _ (fun _ => false) ValueError)
    by (intros x; apply asset_block_returns).
  assert (Hnone : existsb (fun _ : string * Asset.metrics => false) (asset_metrics st)
                  = false)
    by (induction (asset_metrics st); simpl; auto).
  rewrite Hnone. destruct detailed_tx; simpl; [| reflexivity].
  now rewrite (for_printed_outcome _
                 (fun item : string * list record => existsb fee_unreadable (snd item))
                 ValueError)
    by (intros x; apply symbol_block_outcome).
Qed.

(** The theorem at the AAPL file with one more purchase whose commission
    cell is empty: the file loads, the transaction listing ends in
    [ValueError], and the plain listing returns. *)
Lemma display_metrics_outcome_witness :
  exists st,
    Main.load_and_process [] empty_fee_rows = Return st
    /\ snd (Display.display_metrics (fun _ => "") (fun _ => "") st true false true)
       = Raise ValueError
    /\ snd (Display.display_metrics (fun _ => "") (fun _ => "") st true false false)
       = Return tt.
Proof.
  eexists. split; [vm_compute; reflexivity |].
  rewrite !display_metrics_outcome. split; vm_compute; reflexivity.
Defined.

(** X19. The transaction listing values the trades of a symbol at the
    current price of that symbol's asset metrics: after
    [load_and_process], the price handed to
    [compute_transaction_metrics] is the [current_price] field, that is
    the override if there is one and the average purchase price
    otherwise. *)
Theorem transaction_price_is_current_price (prices : dict float)
  (rows : list row) (st : PortfolioAnalyzer) (symbol : string) :
  Main.load_and_process prices rows = Return st ->
  In symbol (keys (trades_by_symbol st)) ->
  exists m,
    get symbol (asset_metrics st) = Some m
    /\ Display.transaction_price st symbol = Asset.current_price m.
Proof.
  intros Hload Hin.
  destruct (load_and_process_fields prices rows st Hload)
    as (summary & Hm & Ht & Hp & _).
  unfold Display.transaction_price. rewrite Hm, Hp. rewrite Ht in Hin.
  rewrite get_compute_asset_metrics.
  destruct (get symbol (rev (Main.process_trades
                               (filter (in_section "Trades") rows))))
    as [trades |] eqn:G.
  - eexists. split; [reflexivity |].
    unfold Main.symbol_metrics. simpl. now destruct (get symbol prices).
  - apply get_None_keys in G. exfalso. apply G.
    unfold keys in *. rewrite map_rev. now apply in_rev in Hin.
Qed.

(** The theorem at the AAPL file with an override for AAPL. *)
Lemma transaction_price_is_current_price_witness :
  exists st m,
    Main.load_and_process [("AAPL", 151)] aapl_rows = Return st
    /\ get "AAPL" (asset_metrics st) = Some m
    /\ Display.transaction_price st "AAPL" = Asset.current_price m.
Proof.
  eexists.
  assert (Hload : Main.load_and_process [("AAPL", 151)] aapl_rows = Return _)
    by (vm_compute; reflexivity).
  destruct (transaction_price_is_current_price [("AAPL", 151)] aapl_rows _ "AAPL"
              Hload) as [m [Hget Hprice]].
  - vm_compute. left. reflexivity.
  - exists m. split; [exact Hload |]. split; [exact Hget | exact Hprice].
Defined.

(** X20. Colours of [display_metrics]: a percentage is printed green
    exactly when it is a number above zero, and red when it is zero,
    negative, a NaN or missing ("N/A"); a realized or unrealized amount
    is printed green exactly when it is [>= 0], zero included. *)
Theorem display_colours (format_2f : float -> string) (use_color : bool) :
  (forall p,
      Display.percentage_text format_2f use_color (Some p) =
      Display.colored (format_2f p ++ "%")%string
        (if 0 <? p then "green" else "red") use_color)
  /\ Display.percentage_text format_2f use_color None =
     Display.colored "N/A" "red" use_color
  /\ (forall n,
        Display.amount_text format_2f use_color n =
        Display.colored (format_2f (to_float n))
          (if Display.num_ge_zero n then "green" else "red") use_color).
Proof.
  split; [| split].
  - intros p. unfold Display.percentage_text, Display.positive_return.
    rewrite float_positive_test. now destruct (0 <? p).
  - reflexivity.
  - intros n. unfold Display.amount_text. now destruct (Display.num_ge_zero n).
Qed.

(** A return of exactly zero is printed red, an amount of exactly zero green. *)
Example zero_colours (format_2f : float -> string) :
  Display.percentage_text format_2f true (Some 0) =
  Display.colored (format_2f 0 ++ "%")%string "red" true
  /\ Display.amount_text format_2f true (PFloat 0) =
     Display.colored (format_2f 0) "green" true.
Proof. split; reflexivity. Qed.

(** ** Cells that read as NaN *)

Section NaN.

Lemma Prim2SF_nan : Prim2SF nan = S754_nan.
Proof. reflexivity. Qed.

Lemma nan_add_l (x : float) : nan + x = nan.
Proof.
  apply Prim2SF_inj. now rewrite add_spec, Prim2SF_nan.
Qed.

Lemma nan_add_r (x : float) : x + nan = nan.
Proof.
  apply Prim2SF_inj. rewrite add_spec, Prim2SF_nan. unfold SF64add.
  now destruct (Prim2SF x).
Qed.

Lemma nan_mul_l (x : float) : nan * x = nan.
Proof.
  apply Prim2SF_inj. now rewrite mul_spec, Prim2SF_nan.
Qed.

Lemma nan_sub_l (x : float) : nan - x = nan.
Proof.
  apply Prim2SF_inj. now rewrite sub_spec, Prim2SF_nan.
Qed.

Lemma nan_div_l (x : float) : nan / x = nan.
Proof.
  apply Prim2SF_inj. now rewrite div_spec, Prim2SF_nan.
Qed.

Lemma accumulate_nan (t : record) :
  Main.accumulate (nan, nan) t = (nan, nan).
Proof.
  unfold Main.accumulate.
  destruct (Main.trade_numbers t) as [[[qty price] commission] |];
    [| reflexivity].
  simpl. now rewrite !nan_add_l.
Qed.

Lemma totals_nan (trades : list record) :
  fold_left Main.accumulate trades (nan, nan) = (nan, nan).
Proof.
  induction trades as [| t trades IH]; simpl; [reflexivity |].
  now rewrite accumulate_nan.
Qed.

End NaN.

(** X21. A quantity cell that reads as NaN is a number for [float]: the
    trade is not left out, and it turns the whole symbol into NaN. Total
    quantity, total cost, average purchase price, current value,
    absolute profit and percentage return are all NaN, whatever the
    other trades and whatever the price override. *)
Theorem nan_quantity_poisons (prices : dict float) (summary : dict record)
  (symbol : string) (l1 l2 : list record) (t : record) (price commission : float) :
  py_float (get_default "Quantity" "0" t) = Some nan ->
  py_float (get_default "T. Price" "0" t) = Some price ->
  py_float (get_default "Comm/Fee" "0" t) = Some commission ->
  let m := Main.symbol_metrics prices summary symbol (l1 ++ t :: l2) in
  Asset.total_quantity m = nan
  /\ Asset.total_cost m = nan
  /\ Asset.avg_purchase_price m = PFloat nan
  /\ Asset.current_value m = nan
  /\ Asset.absolute_pl m = nan
  /\ Asset.percentage_return m = Some nan.
Proof.
  intros Hq Hp Hc.
  assert (Ht : Main.totals (l1 ++ t :: l2) = (nan, nan)).
  { unfold Main.totals. rewrite fold_left_app. simpl.
    unfold Main.accumulate at 2, Main.trade_numbers. rewrite Hq, Hp, Hc.
    rewrite nan_add_r, nan_mul_l, nan_sub_l, nan_add_r. apply totals_nan. }
  unfold Main.symbol_metrics. simpl. rewrite Ht. simpl.
  repeat (rewrite nan_mul_l || rewrite nan_sub_l || rewrite nan_div_l).
  repeat split.
Qed.

(** The theorem at the AAPL purchase followed by a trade whose quantity
    cell is [nan]. *)
Lemma nan_quantity_poisons_witness :
  let m := Main.symbol_metrics [] [] "AAPL"
             [trade_of "AAPL" "10" "100" "1"; trade_of "AAPL" "nan" "100" "1"] in
  Asset.total_quantity m = nan
  /\ Asset.total_cost m = nan
  /\ Asset.avg_purchase_price m = PFloat nan
  /\ Asset.current_value m = nan
  /\ Asset.absolute_pl m = nan
  /\ Asset.percentage_return m = Some nan.
Proof.
  apply (nan_quantity_poisons [] [] "AAPL" [trade_of "AAPL" "10" "100" "1"] []
           (trade_of "AAPL" "nan" "100" "1") 100 1); vm_compute; reflexivity.
Defined.

(** ** Symbols without any numeric trade *)

(** X22. A symbol none of whose trades has three numeric fields is an
    empty position: total quantity and total cost are 0.0, the average
    purchase price is the integer 0 of the division guard, and the
    percentage return is [None]; without an override the current price
    is 0 too, and the current value and absolute profit are 0.0. No
    division is attempted. *)
Theorem no_numeric_trade (prices : dict float) (summary : dict record)
  (symbol : string) (trades : list record) :
  Forall (fun t => py_float (get_default "Quantity" "0" t) = None
                   \/ py_float (get_default "T. Price" "0" t) = None
                   \/ py_float (get_default "Comm/Fee" "0" t) = None) trades ->
  let m := Main.symbol_metrics prices summary symbol trades in
  Asset.total_quantity m = 0
  /\ Asset.total_cost m = 0
  /\ Asset.avg_purchase_price m = PInt 0
  /\ Asset.percentage_return m = None
  /\ (get symbol prices = None ->
      Asset.current_price m = PInt 0
      /\ Asset.current_value m = 0
      /\ Asset.absolute_pl m = 0).
Proof.
  intros H.
  assert (Ht : Main.totals trades = (0, 0)).
  { unfold Main.totals. generalize (0, 0).
    induction H as [| t trades Ht _ IH]; intros acc; simpl; [reflexivity |].
    rewrite accumulate_skip by now apply trade_numbers_fail. apply IH. }
  unfold Main.symbol_metrics. simpl. rewrite Ht. simpl.
  split; [reflexivity |]. split; [reflexivity |]. split; [reflexivity |].
  split; [reflexivity |]. intros Hnone. rewrite Hnone. repeat split.
Qed.

(** The theorem at a symbol whose only trade has a quantity that is no
    number. *)
Lemma no_numeric_trade_witness :
  let m := Main.symbol_metrics [] [] "AAPL" [trade_of "AAPL" "n/a" "100" "1"] in
  Asset.total_quantity m = 0
  /\ Asset.total_cost m = 0
  /\ Asset.avg_purchase_price m = PInt 0
  /\ Asset.percentage_return m = None
  /\ (get "AAPL" ([] : dict float) = None ->
      Asset.current_price m = PInt 0
      /\ Asset.current_value m = 0
      /\ Asset.absolute_pl m = 0).
Proof.
  apply (no_numeric_trade [] [] "AAPL" [trade_of "AAPL" "n/a" "100" "1"]).
  apply Forall_cons; [| apply Forall_nil]. left. vm_compute. reflexivity.
Defined.
